(** * Equipos: the equipment client of royyer-dev/mantenimiento

    A shallow embedding of the React component [Equipos]
    (src/src/Equipos.js and its second copy src/unnamed/part_000) and the
    properties of its synchronisation between UI state and the REST
    collection.

    The component is a set of [async] event handlers over six [useState]
    cells.  A handler is embedded as a finite program ([Prog]) of state
    updates and suspension points: an [Await] carries the request that was
    sent and the code that runs once its response is there.  Values that
    come out of [response.json()] are JavaScript values ([value]); the
    JavaScript operators the handlers apply to them ([||], [!==], property
    reads, string conversion, [String.prototype.includes]) are written out. *)

From Stdlib Require Import String Ascii List ZArith Bool Lia DecimalString.
Import ListNotations.
Open Scope string_scope.
Open Scope Z_scope.
Set Warnings "-register-all".

(* ================================================================== *)
(** ** JavaScript values *)

(** What [JSON.parse] can produce, and [undefined] for an absent property.
    Numbers are the integral ones (identifiers, counters, HTTP statuses)
    that JavaScript holds exactly and prints in full decimal digits, those
    below 2^53 in absolute value; larger ones, which it prints in exponent
    form from 10^21 on, are outside the model.
    An object is the list of its own properties, each key once. *)
Inductive value : Type :=
| VUndefined
| VNull
| VBool (b : bool)
| VNum (n : Z)
| VStr (s : string)
| VArr (elems : list value)
| VObj (props : list (string * value)).

(** Primitive values: the identifiers the delete button passes around.  On
    these [===] is comparison by value. *)
Inductive prim : Type :=
| PUndefined
| PNull
| PBool (b : bool)
| PNum (n : Z)
| PStr (s : string).

(** Messages of the errors the JavaScript engine itself throws. They differ
    from engine to engine, so they are a parameter of the model. *)
Record Engine : Type := {
  (** reading property [prop] of the expression [expr], which is [null] or
      [undefined] ([nullish] is that word) *)
  read_error : forall (nullish expr prop : string), string;
  (** converting an object to a string when it has no usable [toString] *)
  convert_error : string
}.

(** The messages of V8 (Chrome, Node). *)
Definition v8 : Engine := {|
  read_error := fun nullish _ prop =>
    "Cannot read properties of " ++ nullish ++ " (reading '" ++ prop ++ "')";
  convert_error := "Cannot convert object to primitive value"
|}.

(** Thrown errors: only [error.message] is ever read by the handlers, so an
    exception is its message. *)
Definition Exc (A : Type) : Type := (string + A)%type.
Definition ret {A} (a : A) : Exc A := inr a.
Definition throw {A} (msg : string) : Exc A := inl msg.
Definition bind {A B} (m : Exc A) (f : A -> Exc B) : Exc B :=
  match m with
  | inl msg => inl msg
  | inr a => f a
  end.
Notation "x <- m ;; k" := (bind m (fun x => k))
  (at level 61, m at next level, right associativity).

(** Truthiness ([ToBoolean]). *)
Definition truthy (v : value) : bool :=
  match v with
  | VUndefined | VNull => false
  | VBool b => b
  | VNum n => negb (n =? 0)
  | VStr s => negb (String.eqb s "")
  | VArr _ | VObj _ => true
  end.

(** [a || b] *)
Definition js_or (a b : value) : value := if truthy a then a else b.

Fixpoint lookup (key : string) (props : list (string * value)) : option value :=
  match props with
  | [] => None
  | (k, v) :: rest => if String.eqb k key then Some v else lookup key rest
  end.

Definition decimal (n : Z) : string := NilZero.string_of_int (Z.to_int n).

(** [String(v)] ([ToString]); [None] is the TypeError of an object whose own
    [toString] property hides [Object.prototype.toString] (a parsed property
    is never callable, and [valueOf] then returns the object itself). *)
Fixpoint to_string (v : value) : option string :=
  match v with
  | VUndefined => Some "undefined"
  | VNull => Some "null"
  | VBool b => Some (if b then "true" else "false")
  | VNum n => Some (decimal n)
  | VStr s => Some s
  | VArr elems =>
      (* Array.prototype.join(",") *)
      (fix join (l : list value) : option string :=
         match l with
         | [] => Some ""
         | e :: rest =>
             let piece :=
               match e with
               | VUndefined | VNull => Some ""
               | _ => to_string e
               end in
             match piece, rest with
             | None, _ => None
             | Some s, [] => Some s
             | Some s, _ :: _ =>
                 match join rest with
                 | Some r => Some (s ++ "," ++ r)
                 | None => None
                 end
             end
         end) elems
  | VObj props =>
      match lookup "toString" props with
      | Some _ => None
      | None => Some "[object Object]"
      end
  end.

Definition prim_to_string (p : prim) : string :=
  match p with
  | PUndefined => "undefined"
  | PNull => "null"
  | PBool b => if b then "true" else "false"
  | PNum n => decimal n
  | PStr s => s
  end.

Definition prim_truthy (p : prim) : bool :=
  match p with
  | PUndefined | PNull => false
  | PBool b => b
  | PNum n => negb (n =? 0)
  | PStr s => negb (String.eqb s "")
  end.

(** [v === p] for a primitive [p]: same type and same value; an array or an
    object is never [===] to a primitive. *)
Definition strict_eq (v : value) (p : prim) : bool :=
  match v, p with
  | VUndefined, PUndefined => true
  | VNull, PNull => true
  | VBool a, PBool b => Bool.eqb a b
  | VNum a, PNum b => a =? b
  | VStr a, PStr b => String.eqb a b
  | _, _ => false
  end.

(** [s.includes(needle)].  Strings are sequences of bytes (UTF-8) here and
    of UTF-16 code units in JavaScript; for an ASCII needle the two agree. *)
Fixpoint includes (needle s : string) : bool :=
  prefix needle s ||
  match s with
  | EmptyString => false
  | String _ rest => includes needle rest
  end.

Section Language.

Variable eng : Engine.

(** [expr.prop] for the property names the component reads ([message],
    [items], [id]), none of which a built-in prototype defines: an own
    property, or [undefined]; a TypeError on [null] and [undefined]. *)
Definition get (v : value) (expr prop : string) : Exc value :=
  match v with
  | VUndefined => throw (read_error eng "undefined" expr prop)
  | VNull => throw (read_error eng "null" expr prop)
  | VObj props =>
      ret (match lookup prop props with
           | Some x => x
           | None => VUndefined
           end)
  | VBool _ | VNum _ | VStr _ | VArr _ => ret VUndefined
  end.

(** The message of [new Error(v)]. *)
Definition new_Error (v : value) : Exc string :=
  match v with
  | VUndefined => ret ""
  | _ =>
      match to_string v with
      | Some s => ret s
      | None => throw (convert_error eng)
      end
  end.

End Language.

(* ================================================================== *)
(** ** Component state *)

(** [formValues] *)
Record Draft : Type := {
  nombre : string;
  tipo : string;
  ubicacion : string;
  estado : string
}.

Definition emptyDraft : Draft :=
  {| nombre := ""; tipo := ""; ubicacion := ""; estado := "" |}.

(** The [name] attribute of the four form controls. *)
Inductive Field : Type := Fnombre | Ftipo | Fubicacion | Festado.

(** The six [useState] cells. *)
Record State : Type := {
  equipos : value;
  formValues : Draft;
  loading : bool;
  error : option string;
  success : option string;
  deletingId : prim
}.

Definition initialState : State := {|
  equipos := VArr [];
  formValues := emptyDraft;
  loading := false;
  error := None;
  success := None;
  deletingId := PNull
|}.

(** A state update: a setter call.  [None] is an exception thrown by an
    updater function, which React raises again while rendering: the
    component is torn down. *)
Definition Updater : Type := State -> option State.

Definition setEquipos (v : value) : Updater := fun st =>
  Some {| equipos := v; formValues := formValues st; loading := loading st;
          error := error st; success := success st;
          deletingId := deletingId st |}.

Definition setFormValues (d : Draft) : Updater := fun st =>
  Some {| equipos := equipos st; formValues := d; loading := loading st;
          error := error st; success := success st;
          deletingId := deletingId st |}.

Definition setLoading (b : bool) : Updater := fun st =>
  Some {| equipos := equipos st; formValues := formValues st; loading := b;
          error := error st; success := success st;
          deletingId := deletingId st |}.

Definition setError (e : option string) : Updater := fun st =>
  Some {| equipos := equipos st; formValues := formValues st;
          loading := loading st; error := e; success := success st;
          deletingId := deletingId st |}.

Definition setSuccess (s : option string) : Updater := fun st =>
  Some {| equipos := equipos st; formValues := formValues st;
          loading := loading st; error := error st; success := s;
          deletingId := deletingId st |}.

Definition setDeletingId (p : prim) : Updater := fun st =>
  Some {| equipos := equipos st; formValues := formValues st;
          loading := loading st; error := error st; success := success st;
          deletingId := p |}.

(* ================================================================== *)
(** ** Requests, responses and asynchronous programs *)

(** A call of [fetch]: the URL and, for a POST, the [FormData] entries. *)
Inductive Request : Type :=
| GET (url : string)
| POST (url : string) (formData : list (string * string)).

(** What [await response.json()] gives: a rejection with the parser's
    message, or the parsed value. *)
Inductive Body : Type :=
| Unparseable (msg : string)
| Parsed (data : value).

(** What [await fetch(...)] gives: a rejection (no response was received),
    or a response with its status and body. *)
Inductive Outcome : Type :=
| Rejected (msg : string)
| Response (status : Z) (body : Body).

(** [response.ok] *)
Definition ok (status : Z) : bool := (200 <=? status) && (status <=? 299).

(** The body of an [async] handler.  The two awaits of a handler
    ([fetch], then [response.json()]) are one suspension point: no handler
    touches the state between them. *)
Inductive Prog : Type :=
| Done
| Update (u : Updater) (k : Prog)
| Await (r : Request) (k : Outcome -> Prog).

Notation "u ;; k" := (Update u k) (at level 62, right associativity).

(** Where a handler stands after running up to its next suspension point. *)
Inductive Result : Type :=
| Finished (st : State)
| Suspended (st : State) (r : Request) (k : Outcome -> Prog)
| Crashed.

Fixpoint run (p : Prog) (st : State) : Result :=
  match p with
  | Done => Finished st
  | Update u k =>
      match u st with
      | Some st' => run k st'
      | None => Crashed
      end
  | Await r k => Suspended st r k
  end.

(* ================================================================== *)
(** ** The component *)

(** [prev.filter(keep)], with a callback that may throw. *)
Fixpoint js_filter (keep : value -> Exc bool) (prev : list value)
  : Exc (list value) :=
  match prev with
  | [] => ret []
  | e :: rest =>
      b <- keep e ;;
      l <- js_filter keep rest ;;
      ret (if b then e :: l else l)
  end.

Section Component.

Variable eng : Engine.

(** [const baseUrl = "https://apex.oracle.com/pls/apex/.../equipos/"] *)
Variable baseUrl : string.

(** *** fetchEquipos (lines 22-40) *)

(** The [try] block from the [await]s on: the value passed to
    [setEquipos], or the error that reaches [catch]. *)
Definition fetchEquipos_try (out : Outcome) : Exc value :=
  match out with
  | Rejected msg => throw msg
  | Response status (Unparseable msg) => throw msg
  | Response status (Parsed data) =>
      if negb (ok status) then
        m <- get eng data "data" "message" ;;
        e <- new_Error eng (js_or m (VStr "Error al cargar equipos")) ;;
        throw e
      else
        items <- get eng data "data" "items" ;;
        ret (js_or items (VArr []))
  end.

(** [k] is what the caller does after [await fetchEquipos()]. *)
Definition fetchEquipos_resume (k : Prog) (out : Outcome) : Prog :=
  match fetchEquipos_try out with
  | inr items =>
      setEquipos items ;; setError None ;;
      (* finally *) setLoading false ;; k
  | inl msg =>
      (* catch *) setEquipos (VArr []) ;; setError (Some msg) ;;
      (* finally *) setLoading false ;; k
  end.

Definition fetchEquipos (k : Prog) : Prog :=
  setLoading true ;;
  Await (GET baseUrl) (fetchEquipos_resume k).

(** [useEffect(() => { fetchEquipos(); }, [])] *)
Definition mount : Prog := fetchEquipos Done.

(** *** handleChange (lines 42-48) *)

Definition handleChange (name : Field) (v : string) : Prog :=
  (fun st =>
     let prev := formValues st in
     setFormValues
       match name with
       | Fnombre => {| nombre := v; tipo := tipo prev;
                       ubicacion := ubicacion prev; estado := estado prev |}
       | Ftipo => {| nombre := nombre prev; tipo := v;
                     ubicacion := ubicacion prev; estado := estado prev |}
       | Fubicacion => {| nombre := nombre prev; tipo := tipo prev;
                          ubicacion := v; estado := estado prev |}
       | Festado => {| nombre := nombre prev; tipo := tipo prev;
                       ubicacion := ubicacion prev; estado := v |}
       end st) ;;
  Done.

(** *** handleSubmit (lines 50-104) *)

Definition hint : string := " - Verifica la configuración del endpoint REST".

(** A template literal's rendering of the [error] cell. *)
Definition template (prev : option string) : string :=
  match prev with
  | None => "null"
  | Some s => s
  end.

Definition handleSubmit_finally : Prog := setLoading false ;; Done.

Definition handleSubmit_catch (msg : string) : Prog :=
  setError (Some msg) ;;
  if includes "555" msg then
    (fun st => setError (Some (template (error st) ++ hint)) st) ;;
    handleSubmit_finally
  else handleSubmit_finally.

(** The [try] block from the [await]s to the check of [response.ok]. *)
Definition handleSubmit_try (out : Outcome) : Exc unit :=
  match out with
  | Rejected msg => throw msg
  | Response status (Unparseable msg) => throw msg
  | Response status (Parsed data) =>
      if negb (ok status) then
        if status =? 555 then
          m <- get eng data "data" "message" ;;
          e <- new_Error eng
                 (js_or m (VStr "Error en el servidor ORDS (555)")) ;;
          throw e
        else
          m <- get eng data "data" "message" ;;
          e <- new_Error eng (js_or m (VStr ("Error " ++ decimal status))) ;;
          throw e
      else ret tt
  end.

Definition handleSubmit_resume (out : Outcome) : Prog :=
  match handleSubmit_try out with
  | inr _ =>
      setSuccess (Some "Equipo registrado correctamente") ;;
      setFormValues emptyDraft ;;
      fetchEquipos handleSubmit_finally
  | inl msg => handleSubmit_catch msg
  end.

Definition createForm (d : Draft) : list (string * string) :=
  [("nombre", nombre d); ("tipo", tipo d);
   ("ubicacion", ubicacion d); ("estado", estado d)].

(** [!formValues.nombre || !formValues.tipo || ...] *)
Definition incomplete (d : Draft) : bool :=
  String.eqb (nombre d) "" || String.eqb (tipo d) "" ||
  String.eqb (ubicacion d) "" || String.eqb (estado d) "".

(** [d] is the [formValues] of the render the handler belongs to. *)
Definition handleSubmit (d : Draft) : Prog :=
  setLoading true ;; setError None ;; setSuccess None ;;
  if incomplete d then
    handleSubmit_catch "Todos los campos son obligatorios"
  else
    Await (POST baseUrl (createForm d)) handleSubmit_resume.

(** *** handleDelete (lines 106-137) *)

Definition handleDelete_finally : Prog := setDeletingId PNull ;; Done.

(** [setEquipos((prev) => prev.filter((e) => e.id !== id))] *)
Definition removeRecord (id : prim) : Updater := fun st =>
  match equipos st with
  | VArr prev =>
      match js_filter
              (fun e => i <- get eng e "e" "id" ;; ret (negb (strict_eq i id)))
              prev with
      | inr l => setEquipos (VArr l) st
      | inl _ => None
      end
  | _ => None
  end.

Definition handleDelete_resume (id : prim) (out : Outcome) : Prog :=
  match out with
  | Rejected msg =>
      setError (Some msg) ;; handleDelete_finally
  | Response status _ =>
      if negb (ok status) then
        setError (Some "Error al eliminar equipo") ;; handleDelete_finally
      else
        setSuccess (Some "Equipo eliminado correctamente") ;;
        removeRecord id ;;
        fetchEquipos handleDelete_finally
  end.

Definition deleteForm (id : prim) : list (string * string) :=
  [("_method", "DELETE"); ("id", prim_to_string id)].

(** [confirmed] is the answer of [window.confirm]. *)
Definition handleDelete (id : prim) (confirmed : bool) : Prog :=
  if negb confirmed then Done
  else
    setDeletingId id ;; setError None ;; setSuccess None ;;
    Await (POST (baseUrl ++ "?id=" ++ prim_to_string id) (deleteForm id))
          (handleDelete_resume id).

End Component.

(** The two copies of the component differ, apart from the [styles] table,
    in this constant (line 16). *)
Definition baseUrl_Equipos : string :=
  "https://apex.oracle.com/pls/apex/rogelioaluminios/equipos/".
Definition baseUrl_part_000 : string :=
  "https://apex.oracle.com/pls/apex/elrafas44/equipos/".

(* ================================================================== *)
(** ** Running handlers *)

(** One handler, its requests answered in order by [outs]: the requests it
    sent and where it stands. *)
Fixpoint play (outs : list Outcome) (r : Result) : list Request * Result :=
  match r with
  | Suspended st req k =>
      match outs with
      | [] => ([req], r)
      | out :: outs' =>
          let (log, r') := play outs' (run (k out) st) in (req :: log, r')
      end
  | Finished _ | Crashed => ([], r)
  end.

(** The mounted component: its state, the requests that wait for their
    response with the code each resumes, and every request sent so far.
    The handlers are followed, not the rendering of the table; a component
    that was torn down is not followed any further. *)
Record System : Type := {
  ui : State;
  inflight : list (Request * (Outcome -> Prog));
  sent : list Request;
  alive : bool
}.

Definition initialSystem : System :=
  {| ui := initialState; inflight := []; sent := []; alive := true |}.

(** Run handler code [p] up to its next suspension point. *)
Definition launch (p : Prog) (s : System) : System :=
  match run p (ui s) with
  | Finished st =>
      {| ui := st; inflight := inflight s; sent := sent s; alive := true |}
  | Suspended st r k =>
      {| ui := st; inflight := inflight s ++ [(r, k)];
         sent := sent s ++ [r]; alive := true |}
  | Crashed =>
      {| ui := ui s; inflight := inflight s; sent := sent s; alive := false |}
  end.

Fixpoint drop_nth {A} (n : nat) (l : list A) : list A :=
  match l, n with
  | [], _ => []
  | _ :: rest, O => rest
  | x :: rest, S n' => x :: drop_nth n' rest
  end.

(** What happens to the component: its activation, the user's actions and
    the arrival of the response to the [n]-th waiting request. *)
Inductive Event : Type :=
| Mount
| Change (name : Field) (v : string)
| Submit
| Delete (id : prim) (confirmed : bool)
| Respond (n : nat) (out : Outcome).

Section Runs.

Variable eng : Engine.
Variable baseUrl : string.

Definition step (s : System) (ev : Event) : System :=
  if negb (alive s) then s
  else
    match ev with
    | Mount => launch (mount eng baseUrl) s
    | Change name v => launch (handleChange name v) s
    | Submit => launch (handleSubmit eng baseUrl (formValues (ui s))) s
    | Delete id confirmed => launch (handleDelete eng baseUrl id confirmed) s
    | Respond n out =>
        match nth_error (inflight s) n with
        | Some (_, k) =>
            launch (k out)
              {| ui := ui s; inflight := drop_nth n (inflight s);
                 sent := sent s; alive := alive s |}
        | None => s
        end
    end.

Definition exec (evs : list Event) (s : System) : System :=
  fold_left step evs s.

End Runs.

(* ================================================================== *)
(** ** Notions the properties are stated with *)

(** The ways a request is answered with a failure: no response at all, a
    response outside 200-299, a body that is not JSON. *)
Inductive request_failure : Outcome -> Prop :=
| failure_network (msg : string) :
    request_failure (Rejected msg)
| failure_status (status : Z) (body : Body) :
    ok status = false -> request_failure (Response status body)
| failure_body (status : Z) (msg : string) :
    request_failure (Response status (Unparseable msg)).

(** For [list], whose code reads the parsed body also on success, the body
    [null] is a failure as well. *)
Inductive list_failure : Outcome -> Prop :=
| list_failure_request (out : Outcome) :
    request_failure out -> list_failure out
| list_failure_null (status : Z) :
    list_failure (Response status (Parsed VNull)).

(** A draft with an empty field, and a draft with none. *)
Definition some_field_empty (d : Draft) : Prop :=
  nombre d = "" \/ tipo d = "" \/ ubicacion d = "" \/ estado d = "".

Definition all_fields_filled (d : Draft) : Prop :=
  nombre d <> "" /\ tipo d <> "" /\ ubicacion d <> "" /\ estado d <> "".

(** The [id] of a record of the table. *)
Definition record_id (e : value) : value :=
  match e with
  | VObj props =>
      match lookup "id" props with
      | Some x => x
      | None => VUndefined
      end
  | _ => VUndefined
  end.

(** A value of which a property can be read without a TypeError: the rows of
    a table that was rendered, a JSON body other than [null]. *)
Definition readable (e : value) : Prop := e <> VNull /\ e <> VUndefined.

(** Data of the scenarios. *)
Definition sawDraft : Draft :=
  {| nombre := "Saw"; tipo := "Tool"; ubicacion := "Shelf B";
     estado := "Activo" |}.

Definition drill : value :=
  VObj [("id", VNum 1); ("nombre", VStr "Drill"); ("tipo", VStr "Tool");
        ("ubicacion", VStr "Shelf A"); ("estado", VStr "Activo")].

Definition saw : value :=
  VObj [("id", VNum 2); ("nombre", VStr "Saw"); ("tipo", VStr "Tool");
        ("ubicacion", VStr "Shelf B"); ("estado", VStr "Activo")].

(** The state of a user who has typed [d] into the form. *)
Definition typed (d : Draft) : State :=
  {| equipos := VArr [drill]; formValues := d; loading := false;
     error := None; success := None; deletingId := PNull |}.

(** *** The busy flag *)

(** The POST of [remove]: the one whose form starts with the method
    override. *)
Definition is_remove (r : Request) : bool :=
  match r with
  | POST _ ((k, v) :: _) => String.eqb k "_method" && String.eqb v "DELETE"
  | _ => false
  end.

(** [p], run from [st], keeps [loading] in step with its requests: set while
    it waits for a GET or for the POST of [create], not set while it waits
    for the POST of [remove], and not set once it is finished - provided
    nothing else touches [loading] while it waits. *)
Fixpoint in_step (p : Prog) (st : State) : Prop :=
  match p with
  | Done => loading st = false
  | Update u k =>
      match u st with
      | Some st' => in_step k st'
      | None => True
      end
  | Await r k =>
      loading st = negb (is_remove r) /\
      forall out st', loading st' = loading st -> in_step (k out) st'
  end.

Definition starts_operation (ev : Event) : bool :=
  match ev with
  | Mount | Submit | Delete _ _ => true
  | Change _ _ | Respond _ _ => false
  end.

Definition idle (s : System) : bool :=
  match inflight s with
  | [] => true
  | _ :: _ => false
  end.

Section Discipline.

Variable eng : Engine.
Variable baseUrl : string.

(** A run in which no operation is started while a request waits for its
    response. *)
Fixpoint sequential (evs : list Event) (s : System) : bool :=
  match evs with
  | [] => true
  | ev :: rest =>
      (negb (starts_operation ev) || idle s) &&
      sequential rest (step eng baseUrl s ev)
  end.

End Discipline.

(** What such a run maintains. *)
Definition busy_invariant (s : System) : Prop :=
  alive s = true ->
  match inflight s with
  | [] => loading (ui s) = false
  | [(r, k)] =>
      loading (ui s) = negb (is_remove r) /\
      forall out st', loading st' = loading (ui s) -> in_step (k out) st'
  | _ :: _ :: _ => False
  end.

(** *** The two copies *)

Section Copies.

(** The [baseUrl] of one copy and of the other. *)
Variables b1 b2 : string.

(** The same request, each to its own collection. *)
Inductive same_request : Request -> Request -> Prop :=
| same_GET :
    same_request (GET b1) (GET b2)
| same_POST (form : list (string * string)) :
    same_request (POST b1 form) (POST b2 form)
| same_POST_query (query : string) (form : list (string * string)) :
    same_request (POST (b1 ++ query) form) (POST (b2 ++ query) form).

(** The same code, each with its own [baseUrl]. *)
Inductive same_code : Prog -> Prog -> Prop :=
| same_Done :
    same_code Done Done
| same_Update (u : Updater) (k1 k2 : Prog) :
    same_code k1 k2 -> same_code (Update u k1) (Update u k2)
| same_Await (r1 r2 : Request) (k1 k2 : Outcome -> Prog) :
    same_request r1 r2 ->
    (forall out, same_code (k1 out) (k2 out)) ->
    same_code (Await r1 k1) (Await r2 k2).

Definition same_waiting (w1 w2 : Request * (Outcome -> Prog)) : Prop :=
  same_request (fst w1) (fst w2) /\
  forall out, same_code (snd w1 out) (snd w2 out).

Definition same_system (s1 s2 : System) : Prop :=
  ui s1 = ui s2 /\
  alive s1 = alive s2 /\
  Forall2 same_waiting (inflight s1) (inflight s2) /\
  Forall2 same_request (sent s1) (sent s2).

Definition same_result (r1 r2 : Result) : Prop :=
  match r1, r2 with
  | Finished st1, Finished st2 => st1 = st2
  | Suspended st1 q1 k1, Suspended st2 q2 k2 =>
      st1 = st2 /\ same_waiting (q1, k1) (q2, k2)
  | Crashed, Crashed => True
  | _, _ => False
  end.

End Copies.

(** Runs of the scenarios. *)
Definition listed : Outcome :=
  Response 200 (Parsed (VObj [("items", VArr [drill])])).

Definition typing_saw : list Event :=
  [Change Fnombre "Saw"; Change Ftipo "Tool"; Change Fubicacion "Shelf B";
   Change Festado "Activo"].


(** *** The form and the buttons (lines 139-232) *)

(** [formValues[field]], the value a form control shows (line 154). *)
Definition field (name : Field) (d : Draft) : string :=
  match name with
  | Fnombre => nombre d
  | Ftipo => tipo d
  | Fubicacion => ubicacion d
  | Festado => estado d
  end.

Definition field_eqb (a b : Field) : bool :=
  match a, b with
  | Fnombre, Fnombre | Ftipo, Ftipo
  | Fubicacion, Fubicacion | Festado, Festado => true
  | _, _ => false
  end.

(** [disabled={loading}] of the submit button (line 178). *)
Definition submitDisabled (st : State) : bool := loading st.

(** [disabled={!!deletingId}] of the delete button of every row
    (line 218). *)
Definition deleteDisabled (st : State) : bool := prim_truthy (deletingId st).

(** An action the rendered component lets the user take: the form is
    submitted through its enabled button and with its four [required]
    controls filled (lines 156, 168), a remove is started through an enabled
    delete button. *)
Definition offered (s : System) (ev : Event) : bool :=
  match ev with
  | Submit =>
      negb (submitDisabled (ui s)) && negb (incomplete (formValues (ui s)))
  | Delete _ _ => negb (deleteDisabled (ui s))
  | Mount | Change _ _ | Respond _ _ => true
  end.

Definition is_change (ev : Event) : bool :=
  match ev with
  | Change _ _ => true
  | _ => false
  end.

(** The identifier a delete button passes is truthy. *)
Definition truthy_ids (ev : Event) : bool :=
  match ev with
  | Delete id _ => prim_truthy id
  | _ => true
  end.

Section Guards.

Variable eng : Engine.
Variable baseUrl : string.

(** A run in which the user only takes actions that are offered. *)
Fixpoint guarded (evs : list Event) (s : System) : bool :=
  match evs with
  | [] => true
  | ev :: rest => offered s ev && guarded rest (step eng baseUrl s ev)
  end.

End Guards.

(** *** Failures of remove *)

(** [remove] looks at the status only: no response, or one outside
    200-299. *)
Inductive remove_failure : Outcome -> Prop :=
| remove_failure_network (msg : string) :
    remove_failure (Rejected msg)
| remove_failure_status (status : Z) (body : Body) :
    ok status = false -> remove_failure (Response status body).

(** *** Who owns [deletingId] *)

(** Code that leaves [deletingId] alone and sends no POST of [remove]. *)
Fixpoint bystander (p : Prog) (st : State) : Prop :=
  match p with
  | Done => True
  | Update u k =>
      match u st with
      | Some st' => deletingId st' = deletingId st /\ bystander k st'
      | None => True
      end
  | Await r k =>
      is_remove r = false /\ forall out st', bystander (k out) st'
  end.

(** Code of a [remove] in progress for [d]: it keeps [deletingId] at [d]
    while it waits, resets it when it finishes, and sends no further POST of
    [remove]. *)
Fixpoint owner (d : prim) (p : Prog) (st : State) : Prop :=
  match p with
  | Done => deletingId st = PNull
  | Update u k =>
      match u st with
      | Some st' => owner d k st'
      | None => True
      end
  | Await r k =>
      is_remove r = false /\ deletingId st = d /\
      forall out st', deletingId st' = d -> owner d (k out) st'
  end.

Definition bystander_entry (w : Request * (Outcome -> Prog)) : Prop :=
  is_remove (fst w) = false /\ forall out st', bystander (snd w out) st'.

Definition owner_entry (d : prim) (w : Request * (Outcome -> Prog)) : Prop :=
  forall out st', deletingId st' = d -> owner d (snd w out) st'.

Definition delete_invariant (s : System) : Prop :=
  alive s = true ->
  (deleteDisabled (ui s) = false /\ Forall bystander_entry (inflight s)) \/
  (exists l1 w l2,
      inflight s = (l1 ++ w :: l2)%list /\
      Forall bystander_entry l1 /\ Forall bystander_entry l2 /\
      owner_entry (deletingId (ui s)) w /\
      deleteDisabled (ui s) = true).

(** *** Records that are rows *)

(** [records] is an array whose elements are rows. *)
Definition rows_ok (st : State) : Prop :=
  exists rows, equipos st = VArr rows /\ Forall readable rows.

(** A response whose [items], when the body is an object that has a truthy
    one, is an array of rows. *)
Definition well_formed (out : Outcome) : Prop :=
  match out with
  | Response _ (Parsed (VObj props)) =>
      match lookup "items" props with
      | Some items =>
          truthy items = false \/
          exists rows, items = VArr rows /\ Forall readable rows
      | None => True
      end
  | _ => True
  end.

Definition well_formed_event (ev : Event) : Prop :=
  match ev with
  | Respond _ out => well_formed out
  | _ => True
  end.

(** Code that, run from rows, never throws in an updater and leaves rows,
    as long as the responses it gets are well formed. *)
Fixpoint keeps_rows (p : Prog) (st : State) : Prop :=
  match p with
  | Done => rows_ok st
  | Update u k => exists st', u st = Some st' /\ keeps_rows k st'
  | Await r k =>
      rows_ok st /\
      forall out st', well_formed out -> rows_ok st' -> keeps_rows (k out) st'
  end.

Definition keeps_rows_entry (w : Request * (Outcome -> Prog)) : Prop :=
  forall out st', well_formed out -> rows_ok st' -> keeps_rows (snd w out) st'.

Definition rows_invariant (s : System) : Prop :=
  alive s = true /\ rows_ok (ui s) /\ Forall keeps_rows_entry (inflight s).

(* ================================================================== *)
(** ** Basic facts *)

Lemma incomplete_true_iff (d : Draft) :
  incomplete d = true <-> some_field_empty d.
Proof.
  unfold incomplete, some_field_empty.
  rewrite !orb_true_iff, !String.eqb_eq. tauto.
Qed.

Lemma incomplete_false_iff (d : Draft) :
  incomplete d = false <-> all_fields_filled d.
Proof.
  unfold incomplete, all_fields_filled.
  rewrite !orb_false_iff, !String.eqb_neq. tauto.
Qed.

Lemma truthy_VStr (m : string) : truthy (VStr m) = true <-> m <> "".
Proof.
  simpl. rewrite negb_true_iff, String.eqb_neq. tauto.
Qed.

(** A handler that reaches its validation error never suspends. *)
Lemma run_handleSubmit_incomplete eng baseUrl (d : Draft) (st : State) :
  incomplete d = true ->
  run (handleSubmit eng baseUrl d) st =
  Finished {| equipos := equipos st; formValues := formValues st;
              loading := false;
              error := Some "Todos los campos son obligatorios";
              success := None; deletingId := deletingId st |}.
Proof.
  intros H. unfold handleSubmit. rewrite H. reflexivity.
Qed.

Lemma run_handleSubmit_complete eng baseUrl (d : Draft) (st : State) :
  incomplete d = false ->
  run (handleSubmit eng baseUrl d) st =
  Suspended {| equipos := equipos st; formValues := formValues st;
               loading := true; error := None; success := None;
               deletingId := deletingId st |}
            (POST baseUrl (createForm d)) (handleSubmit_resume eng baseUrl).
Proof.
  intros H. unfold handleSubmit. rewrite H. reflexivity.
Qed.

(** The [catch] block of [handleSubmit]. *)
Lemma run_handleSubmit_catch (msg : string) (st : State) :
  run (handleSubmit_catch msg) st =
  Finished {| equipos := equipos st; formValues := formValues st;
              loading := false;
              error := Some (if includes "555" msg then msg ++ hint else msg);
              success := success st; deletingId := deletingId st |}.
Proof.
  unfold handleSubmit_catch. destruct (includes "555" msg); reflexivity.
Qed.

(** A response outside 200-299, or none, or one without a JSON body, always
    ends in the [catch] block. *)
Lemma handleSubmit_try_failure eng (out : Outcome) :
  request_failure out -> exists msg, handleSubmit_try eng out = inl msg.
Proof.
  intros [msg | status body Hok | status msg].
  - eexists; reflexivity.
  - destruct body as [msg | data]; [eexists; reflexivity |].
    unfold handleSubmit_try. rewrite Hok. cbn [negb].
    destruct (status =? 555);
      (destruct (get eng data "data" "message") as [e | m];
       [eexists; reflexivity |]); cbn [bind];
      match goal with
      | |- context [new_Error eng ?v] => destruct (new_Error eng v)
      end; eexists; reflexivity.
  - eexists; reflexivity.
Qed.

Lemma handleSubmit_try_success eng (status : Z) (data : value) :
  ok status = true ->
  handleSubmit_try eng (Response status (Parsed data)) = inr tt.
Proof.
  intros Hok. unfold handleSubmit_try. rewrite Hok. reflexivity.
Qed.

(** [fetchEquipos] never fails towards its caller: whatever the answer, it
    updates three cells and hands over to [k]. *)
Lemma run_fetchEquipos_resume eng (k : Prog) (out : Outcome) (st : State) :
  run (fetchEquipos_resume eng k out) st =
  run k
    match fetchEquipos_try eng out with
    | inr items =>
        {| equipos := items; formValues := formValues st; loading := false;
           error := None; success := success st;
           deletingId := deletingId st |}
    | inl msg =>
        {| equipos := VArr []; formValues := formValues st; loading := false;
           error := Some msg; success := success st;
           deletingId := deletingId st |}
    end.
Proof.
  unfold fetchEquipos_resume.
  destruct (fetchEquipos_try eng out); reflexivity.
Qed.

Lemma fetchEquipos_try_failure eng (out : Outcome) :
  list_failure out -> exists msg, fetchEquipos_try eng out = inl msg.
Proof.
  intros [out' [msg | status body Hok | status msg] | status].
  - eexists; reflexivity.
  - destruct body as [msg | data]; [eexists; reflexivity |].
    unfold fetchEquipos_try. rewrite Hok. cbn [negb].
    destruct (get eng data "data" "message") as [e | m];
      [eexists; reflexivity |]. cbn [bind].
    match goal with
    | |- context [new_Error eng ?v] => destruct (new_Error eng v)
    end; eexists; reflexivity.
  - eexists; reflexivity.
  - unfold fetchEquipos_try. destruct (ok status); eexists; reflexivity.
Qed.

(** The message of [new Error(m || fallback)]. *)
Lemma new_Error_present eng (v fallback : value) (m : string) :
  truthy v = true -> to_string v = Some m ->
  new_Error eng (js_or v fallback) = inr m.
Proof.
  intros Ht Hs. unfold js_or. rewrite Ht.
  unfold new_Error. rewrite Hs.
  destruct v; try reflexivity. discriminate.
Qed.

Lemma new_Error_absent eng (v : value) (fallback : string) :
  truthy v = false ->
  new_Error eng (js_or v (VStr fallback)) = inr fallback.
Proof.
  intros Ht. unfold js_or. rewrite Ht. reflexivity.
Qed.

Lemma new_Error_unprintable eng (v fallback : value) :
  truthy v = true -> to_string v = None ->
  new_Error eng (js_or v fallback) = inl (convert_error eng).
Proof.
  intros Ht Hs. unfold js_or. rewrite Ht.
  unfold new_Error. rewrite Hs.
  destruct v; try reflexivity. discriminate.
Qed.

Lemma run_handleSubmit_resume_failure eng baseUrl (out : Outcome) (st : State) :
  request_failure out ->
  exists msg,
    handleSubmit_try eng out = inl msg /\
    run (handleSubmit_resume eng baseUrl out) st =
    Finished {| equipos := equipos st; formValues := formValues st;
                loading := false;
                error := Some (if includes "555" msg then msg ++ hint else msg);
                success := success st; deletingId := deletingId st |}.
Proof.
  intros Hf. destruct (handleSubmit_try_failure eng out Hf) as [msg Hmsg].
  exists msg. split; [exact Hmsg |].
  unfold handleSubmit_resume. rewrite Hmsg. apply run_handleSubmit_catch.
Qed.

Lemma run_handleSubmit_resume_success eng baseUrl status data (st : State) :
  ok status = true ->
  run (handleSubmit_resume eng baseUrl (Response status (Parsed data))) st =
  Suspended {| equipos := equipos st; formValues := emptyDraft;
               loading := true; error := error st;
               success := Some "Equipo registrado correctamente";
               deletingId := deletingId st |}
            (GET baseUrl) (fetchEquipos_resume eng handleSubmit_finally).
Proof.
  intros Hok. unfold handleSubmit_resume.
  rewrite (handleSubmit_try_success eng status data Hok). reflexivity.
Qed.

(** What [handleSubmit] shows for a response outside 200-299 whose JSON body
    was read: the thrown message, with the hint when it contains "555". *)
Lemma run_handleSubmit_resume_message eng baseUrl status data
      (m : string) (st : State) :
  handleSubmit_try eng (Response status (Parsed data)) = inl m ->
  exists st',
    run (handleSubmit_resume eng baseUrl (Response status (Parsed data))) st =
    Finished st' /\
    error st' = Some (if includes "555" m then m ++ hint else m) /\
    formValues st' = formValues st.
Proof.
  intros Htry. unfold handleSubmit_resume. rewrite Htry.
  rewrite run_handleSubmit_catch. eexists. split; [reflexivity |].
  split; reflexivity.
Qed.

(** No three-digit status other than 555 prints with "555" in it. *)
Lemma fallback_without_555 (status : Z) :
  100 <= status <= 999 -> status <> 555 ->
  includes "555" ("Error " ++ decimal status) = false.
Proof.
  intros Hr Hne.
  assert (H : forallb
                (fun n => (Z.of_nat n =? 555) ||
                          negb (includes "555" ("Error " ++ decimal (Z.of_nat n))))
                (seq 100 900) = true) by (vm_compute; reflexivity).
  rewrite forallb_forall in H.
  specialize (H (Z.to_nat status)).
  rewrite Z2Nat.id in H by lia.
  assert (Hin : In (Z.to_nat status) (seq 100 900)) by (apply in_seq; lia).
  apply H in Hin. apply orb_true_iff in Hin as [Heq | Hn].
  - apply Z.eqb_eq in Heq. contradiction.
  - now apply negb_true_iff in Hn.
Qed.

(** [prev.filter((e) => e.id !== id)] on rows keeps, in order, the rows whose
    [id] is not [id]. *)
Lemma js_filter_rows eng (id : prim) (rows : list value) :
  Forall readable rows ->
  js_filter (fun e => i <- get eng e "e" "id" ;; ret (negb (strict_eq i id)))
            rows =
  inr (filter (fun e => negb (strict_eq (record_id e) id)) rows).
Proof.
  induction 1 as [| e rows [Hnull Hundef] _ IH]; [reflexivity |].
  cbn [js_filter filter]. rewrite IH.
  destruct e; try contradiction; cbn [get record_id bind ret];
    match goal with
    | |- context [negb ?b] => destruct (negb b)
    end; reflexivity.
Qed.

Lemma run_handleDelete_confirmed eng baseUrl (id : prim) (st : State) :
  run (handleDelete eng baseUrl id true) st =
  Suspended {| equipos := equipos st; formValues := formValues st;
               loading := loading st; error := None; success := None;
               deletingId := id |}
            (POST (baseUrl ++ "?id=" ++ prim_to_string id) (deleteForm id))
            (handleDelete_resume eng baseUrl id).
Proof. reflexivity. Qed.

Lemma run_handleDelete_resume_success eng baseUrl (id : prim) status body
      (rows : list value) (st : State) :
  ok status = true -> equipos st = VArr rows -> Forall readable rows ->
  run (handleDelete_resume eng baseUrl id (Response status body)) st =
  Suspended {| equipos :=
                 VArr (filter (fun e => negb (strict_eq (record_id e) id)) rows);
               formValues := formValues st; loading := true;
               error := error st;
               success := Some "Equipo eliminado correctamente";
               deletingId := deletingId st |}
            (GET baseUrl) (fetchEquipos_resume eng handleDelete_finally).
Proof.
  intros Hok Heq Hrows. unfold handleDelete_resume. rewrite Hok.
  cbn [negb run setSuccess]. unfold removeRecord at 1. cbn [equipos].
  rewrite Heq, (js_filter_rows eng id rows Hrows). reflexivity.
Qed.

(* ================================================================== *)
(** ** create *)

(** C7. For every draft with at least one of its four fields empty, [create]
    (the Submit event) sends no request at all: the list of requests sent and
    the list of requests waiting are what they were, and the error message is
    the validation error. *)
Theorem create_rejects_incomplete_draft eng baseUrl (s : System) :
  alive s = true ->
  some_field_empty (formValues (ui s)) ->
  let s' := step eng baseUrl s Submit in
  sent s' = sent s /\
  inflight s' = inflight s /\
  error (ui s') = Some "Todos los campos son obligatorios" /\
  run (handleSubmit eng baseUrl (formValues (ui s))) (ui s) = Finished (ui s').
Proof.
  intros Halive Hempty. apply incomplete_true_iff in Hempty.
  unfold step, launch. rewrite Halive. cbn [negb].
  rewrite (run_handleSubmit_incomplete eng baseUrl _ (ui s) Hempty).
  cbn. repeat split; reflexivity.
Qed.

Lemma create_rejects_incomplete_draft_witness :
  let s := {| ui := typed {| nombre := "Saw"; tipo := ""; ubicacion := "Shelf B";
                             estado := "Activo" |};
              inflight := []; sent := [GET baseUrl_Equipos]; alive := true |} in
  sent (step v8 baseUrl_Equipos s Submit) = [GET baseUrl_Equipos] /\
  error (ui (step v8 baseUrl_Equipos s Submit)) =
  Some "Todos los campos son obligatorios".
Proof.
  intros s.
  destruct (create_rejects_incomplete_draft v8 baseUrl_Equipos s)
    as (Hsent & _ & Herr & _).
  - reflexivity.
  - right; left; reflexivity.
  - split; [exact Hsent | exact Herr].
Defined.

(** C10. Whenever [create] fails - the draft has an empty field, no response
    arrives, the response is outside 200-299 or its body is not JSON - the
    handler finishes with the four field values of the draft as they were. *)
Theorem create_failure_keeps_draft eng baseUrl (st : State) (out : Outcome) :
  some_field_empty (formValues st) \/ request_failure out ->
  exists log st',
    play [out] (run (handleSubmit eng baseUrl (formValues st)) st) =
    (log, Finished st') /\
    formValues st' = formValues st.
Proof.
  intros H.
  destruct (incomplete (formValues st)) eqn:Hinc.
  - rewrite (run_handleSubmit_incomplete eng baseUrl _ st Hinc).
    eexists; eexists; split; reflexivity.
  - destruct H as [Hempty | Hfail].
    + apply incomplete_true_iff in Hempty. congruence.
    + rewrite (run_handleSubmit_complete eng baseUrl _ st Hinc).
      cbn [play].
      destruct (run_handleSubmit_resume_failure eng baseUrl out
                  {| equipos := equipos st; formValues := formValues st;
                     loading := true; error := None; success := None;
                     deletingId := deletingId st |} Hfail)
        as (msg & _ & Hrun).
      rewrite Hrun. eexists; eexists; split; reflexivity.
Qed.

Lemma create_failure_keeps_draft_witness :
  exists log st',
    play [Response 500 (Parsed (VObj [("message", VStr "ORA-00001")]))]
         (run (handleSubmit v8 baseUrl_Equipos sawDraft) (typed sawDraft)) =
    (log, Finished st') /\
    formValues st' = sawDraft.
Proof.
  apply (create_failure_keeps_draft v8 baseUrl_Equipos (typed sawDraft)).
  right. apply failure_status. reflexivity.
Defined.

(** C5, as the code has it. For every draft with all four fields non-empty,
    when [create] receives a 2xx response whose body is JSON, it sets the
    success message, resets the draft to four empty strings and sends one
    GET of the collection; when that GET is answered, whatever the answer,
    the handler is finished: one POST and one GET were sent. *)
Theorem create_success eng baseUrl (st : State) status data (out : Outcome) :
  all_fields_filled (formValues st) ->
  ok status = true ->
  exists st1 st2,
    play [Response status (Parsed data)]
         (run (handleSubmit eng baseUrl (formValues st)) st) =
    ([POST baseUrl (createForm (formValues st)); GET baseUrl],
     Suspended st1 (GET baseUrl) (fetchEquipos_resume eng handleSubmit_finally))
    /\ success st1 = Some "Equipo registrado correctamente"
    /\ formValues st1 = emptyDraft
    /\ play [Response status (Parsed data); out]
             (run (handleSubmit eng baseUrl (formValues st)) st) =
        ([POST baseUrl (createForm (formValues st)); GET baseUrl], Finished st2)
    /\ success st2 = Some "Equipo registrado correctamente"
    /\ formValues st2 = emptyDraft
    /\ loading st2 = false.
Proof.
  intros Hfilled Hok. apply incomplete_false_iff in Hfilled.
  rewrite (run_handleSubmit_complete eng baseUrl _ st Hfilled).
  cbn [play].
  rewrite (run_handleSubmit_resume_success eng baseUrl status data _ Hok).
  cbn [play]. rewrite run_fetchEquipos_resume.
  eexists; eexists. split; [reflexivity |].
  split; [reflexivity |]. split; [reflexivity |].
  split; [reflexivity |].
  destruct (fetchEquipos_try eng out); repeat split; reflexivity.
Qed.

Lemma create_success_witness :
  exists st1 st2,
    play [Response 201 (Parsed (VObj []))]
         (run (handleSubmit v8 baseUrl_Equipos sawDraft) (typed sawDraft)) =
    ([POST baseUrl_Equipos (createForm sawDraft); GET baseUrl_Equipos],
     Suspended st1 (GET baseUrl_Equipos)
               (fetchEquipos_resume v8 handleSubmit_finally))
    /\ success st1 = Some "Equipo registrado correctamente"
    /\ formValues st1 = emptyDraft
    /\ play [Response 201 (Parsed (VObj []));
              Response 200 (Parsed (VObj [("items", VArr [drill; saw])]))]
             (run (handleSubmit v8 baseUrl_Equipos sawDraft) (typed sawDraft)) =
        ([POST baseUrl_Equipos (createForm sawDraft); GET baseUrl_Equipos],
         Finished st2)
    /\ success st2 = Some "Equipo registrado correctamente"
    /\ formValues st2 = emptyDraft
    /\ loading st2 = false.
Proof.
  apply (create_success v8 baseUrl_Equipos (typed sawDraft) 201 (VObj [])).
  - repeat split; discriminate.
  - reflexivity.
Defined.

(** C5, as the specification states it, fails: a 2xx response without a JSON body
    (an empty 204, say) makes [response.json()] reject before [response.ok]
    is looked at; no success message, the draft kept, no GET. *)
Lemma create_2xx_without_json_body :
  exists st',
    play [Response 204 (Unparseable "Unexpected end of JSON input")]
         (run (handleSubmit v8 baseUrl_Equipos sawDraft) (typed sawDraft)) =
    ([POST baseUrl_Equipos (createForm sawDraft)], Finished st')
    /\ success st' = None
    /\ formValues st' = sawDraft
    /\ error st' = Some "Unexpected end of JSON input".
Proof.
  eexists. split; [reflexivity |]. repeat split; reflexivity.
Qed.

(** C1, evaluated. A 555 response whose body is [{message:"bad config"}]
    leaves the error message "bad config", without the hint: the [catch]
    block looks for "555" in the text of the message, not at the status. *)
Theorem create_555_with_server_message eng baseUrl (st : State) :
  exists st',
    run (handleSubmit_resume eng baseUrl
           (Response 555 (Parsed (VObj [("message", VStr "bad config")])))) st =
    Finished st' /\
    error st' = Some "bad config" /\
    error st' <> Some ("bad config" ++ hint).
Proof.
  eexists. split; [reflexivity |]. split; [reflexivity | discriminate].
Qed.

(** The sibling path: the same 555 response without a message in its body
    does get the hint, through the fallback text that names the status. *)
Lemma create_555_without_server_message eng baseUrl (st : State) :
  exists st',
    run (handleSubmit_resume eng baseUrl (Response 555 (Parsed (VObj [])))) st =
    Finished st' /\
    error st' = Some ("Error en el servidor ORDS (555)" ++ hint).
Proof.
  eexists. split; reflexivity.
Qed.

(** C8, as the code has it. When [create] receives a response outside
    200-299 with a three-digit status other than 555, the error message is
    the message of the error the handler raises, as long as that text does
    not contain "555" (texts that do are left aside): for a JSON body other
    than [null], the message of the body when it has one (a truthy
    [message], converted to a string; the text of the TypeError when it
    cannot be converted) and otherwise "Error <status>", which never
    contains "555"; for the JSON body [null], the text of the TypeError of
    reading [message] of [null]; for a body that is not JSON, the message of
    the JSON parse error. *)
Theorem create_error_message eng baseUrl status (st : State) :
  ok status = false -> status <> 555 -> 100 <= status <= 999 ->
  (forall data v m,
      get eng data "data" "message" = inr v ->
      truthy v = true -> to_string v = Some m -> includes "555" m = false ->
      exists st',
        run (handleSubmit_resume eng baseUrl (Response status (Parsed data))) st
        = Finished st' /\ error st' = Some m) /\
  (forall data v,
      get eng data "data" "message" = inr v ->
      truthy v = true -> to_string v = None ->
      includes "555" (convert_error eng) = false ->
      exists st',
        run (handleSubmit_resume eng baseUrl (Response status (Parsed data))) st
        = Finished st' /\ error st' = Some (convert_error eng)) /\
  (forall data v,
      get eng data "data" "message" = inr v ->
      truthy v = false ->
      exists st',
        run (handleSubmit_resume eng baseUrl (Response status (Parsed data))) st
        = Finished st' /\ error st' = Some ("Error " ++ decimal status)) /\
  (includes "555" (read_error eng "null" "data" "message") = false ->
   exists st',
     run (handleSubmit_resume eng baseUrl (Response status (Parsed VNull))) st
     = Finished st' /\
     error st' = Some (read_error eng "null" "data" "message")) /\
  (forall msg,
      includes "555" msg = false ->
      exists st',
        run (handleSubmit_resume eng baseUrl (Response status (Unparseable msg)))
            st
        = Finished st' /\ error st' = Some msg).
Proof.
  intros Hok Hne Hrange.
  assert (H555 : (status =? 555) = false) by now apply Z.eqb_neq.
  assert (Hthrown : forall data m,
             handleSubmit_try eng (Response status (Parsed data)) = inl m ->
             includes "555" m = false ->
             exists st',
               run (handleSubmit_resume eng baseUrl
                      (Response status (Parsed data))) st
               = Finished st' /\ error st' = Some m).
  { intros data m Htry Hinc.
    destruct (run_handleSubmit_resume_message eng baseUrl status data m st Htry)
      as (st' & Hrun & Herr & _).
    exists st'. rewrite Hinc in Herr. split; assumption. }
  split; [| split; [| split; [| split]]].
  - intros data v m Hget Ht Hs Hinc. apply Hthrown; [| exact Hinc].
    unfold handleSubmit_try. rewrite Hok, H555, Hget. cbn [negb bind].
    rewrite (new_Error_present eng v _ m Ht Hs). reflexivity.
  - intros data v Hget Ht Hs Hinc. apply Hthrown; [| exact Hinc].
    unfold handleSubmit_try. rewrite Hok, H555, Hget. cbn [negb bind].
    rewrite (new_Error_unprintable eng v _ Ht Hs). reflexivity.
  - intros data v Hget Ht. apply Hthrown.
    + unfold handleSubmit_try. rewrite Hok, H555, Hget. cbn [negb bind].
      rewrite (new_Error_absent eng v _ Ht). reflexivity.
    + apply fallback_without_555; assumption.
  - intros Hinc. apply Hthrown; [| exact Hinc].
    unfold handleSubmit_try. rewrite Hok, H555. reflexivity.
  - intros msg Hinc. unfold handleSubmit_resume. cbn [handleSubmit_try throw].
    rewrite run_handleSubmit_catch, Hinc. eexists. split; reflexivity.
Qed.

Lemma create_error_message_witness :
  (exists st',
      run (handleSubmit_resume v8 baseUrl_Equipos
             (Response 500 (Parsed (VObj [("message", VStr "ORA-00001")]))))
          (typed sawDraft)
      = Finished st' /\ error st' = Some "ORA-00001") /\
  (exists st',
      run (handleSubmit_resume v8 baseUrl_Equipos
             (Response 500
                (Parsed (VObj [("message", VObj [("toString", VNum 1)])]))))
          (typed sawDraft)
      = Finished st' /\
      error st' = Some "Cannot convert object to primitive value") /\
  (exists st',
      run (handleSubmit_resume v8 baseUrl_Equipos
             (Response 404 (Parsed (VObj [("code", VStr "NotFound")]))))
          (typed sawDraft)
      = Finished st' /\ error st' = Some "Error 404") /\
  (exists st',
      run (handleSubmit_resume v8 baseUrl_Equipos (Response 500 (Parsed VNull)))
          (typed sawDraft)
      = Finished st' /\
      error st' = Some "Cannot read properties of null (reading 'message')") /\
  (exists st',
      run (handleSubmit_resume v8 baseUrl_Equipos
             (Response 502 (Unparseable "Unexpected token < in JSON at position 0")))
          (typed sawDraft)
      = Finished st' /\
      error st' = Some "Unexpected token < in JSON at position 0").
Proof.
  destruct (create_error_message v8 baseUrl_Equipos 500 (typed sawDraft))
    as (Hpresent & Hunprintable & _ & Hnull & _); [reflexivity | lia | lia |].
  destruct (create_error_message v8 baseUrl_Equipos 404 (typed sawDraft))
    as (_ & _ & Habsent & _ & _); [reflexivity | lia | lia |].
  destruct (create_error_message v8 baseUrl_Equipos 502 (typed sawDraft))
    as (_ & _ & _ & _ & Hbody); [reflexivity | lia | lia |].
  split; [| split; [| split; [| split]]].
  - apply (Hpresent (VObj [("message", VStr "ORA-00001")]) (VStr "ORA-00001"));
      reflexivity.
  - apply (Hunprintable (VObj [("message", VObj [("toString", VNum 1)])])
                        (VObj [("toString", VNum 1)])); reflexivity.
  - apply (Habsent (VObj [("code", VStr "NotFound")]) VUndefined); reflexivity.
  - apply Hnull. reflexivity.
  - apply Hbody. reflexivity.
Defined.

(** C8, as the specification states it, fails: a 500 response with an HTML body has
    no server message in it, yet the error message is not "Error 500" but
    the message of the JSON parser, since the body is parsed before the
    status is looked at. *)
Lemma create_500_html_body :
  exists st',
    run (handleSubmit_resume v8 baseUrl_Equipos
           (Response 500
              (Unparseable "Unexpected token < in JSON at position 0")))
        (typed sawDraft)
    = Finished st' /\
    error st' <> Some "Error 500".
Proof.
  eexists. split; [reflexivity | discriminate].
Qed.


(* ================================================================== *)
(** ** list *)

(** C9. When [list] receives a 2xx response with a JSON body, [records]
    becomes the [items] array of that body, the empty sequence when the body
    has no [items], and the error message is cleared; the handler then hands
    over to its caller [k]. *)
Theorem list_success eng status data (st : State) :
  ok status = true ->
  readable data ->
  exists st',
    (forall k, run (fetchEquipos_resume eng k (Response status (Parsed data))) st
               = run k st') /\
    error st' = None /\
    (forall rows, get eng data "data" "items" = inr (VArr rows) ->
                  equipos st' = VArr rows) /\
    (get eng data "data" "items" = inr VUndefined -> equipos st' = VArr []).
Proof.
  intros Hok [Hnull Hundef].
  assert (Hget : exists items, get eng data "data" "items" = inr items).
  { destruct data; try (eexists; reflexivity); contradiction. }
  destruct Hget as [items Hget].
  eexists. split.
  - intros k. rewrite run_fetchEquipos_resume.
    unfold fetchEquipos_try. rewrite Hok, Hget. cbn [negb bind ret].
    reflexivity.
  - split; [reflexivity |]. cbn [equipos]. split.
    + intros rows Hrows. rewrite Hrows in Hget. now inversion Hget.
    + intros Habsent. rewrite Habsent in Hget. now inversion Hget.
Qed.

(** The scenario of the specification: the response
    [{items:[{id:1,nombre:"Drill",...}]}] leaves exactly that one record. *)
Lemma list_success_witness :
  exists st',
    run (fetchEquipos_resume v8 Done
           (Response 200 (Parsed (VObj [("items", VArr [drill])]))))
        {| equipos := VArr [saw]; formValues := emptyDraft; loading := true;
           error := Some "Failed to fetch"; success := None;
           deletingId := PNull |}
    = Finished st' /\
    equipos st' = VArr [drill] /\ error st' = None.
Proof.
  destruct (list_success v8 200 (VObj [("items", VArr [drill])])
              {| equipos := VArr [saw]; formValues := emptyDraft;
                 loading := true; error := Some "Failed to fetch";
                 success := None; deletingId := PNull |})
    as (st' & Hrun & Herr & Hitems & _).
  - reflexivity.
  - split; discriminate.
  - exists st'. split; [apply (Hrun Done) |].
    split; [apply Hitems; reflexivity | exact Herr].
Defined.

(** C4, as the code has it. Whenever [list] fails - the fetch is rejected,
    the status is outside 200-299, or the body is not JSON or is the JSON
    value [null] - [records] becomes the empty sequence whatever it held,
    and the error message is set: for a response outside 200-299 with a
    JSON body other than [null], to the message of the body when it has one
    (a truthy [message], converted to a string; the text of the TypeError
    when it cannot be converted) and otherwise to "Error al cargar equipos";
    in the other cases to the message of the error that was raised: the
    rejection of [fetch], the error of the JSON parser, the TypeError of
    reading a property of [null] ([items] on a 2xx, [message] otherwise). *)
Theorem list_failure_empties_records eng (out : Outcome) (st : State) :
  list_failure out ->
  exists st' msg,
    (forall k, run (fetchEquipos_resume eng k out) st = run k st') /\
    equipos st' = VArr [] /\
    error st' = Some msg /\
    (forall status data v,
        out = Response status (Parsed data) -> ok status = false ->
        get eng data "data" "message" = inr v ->
        msg = if truthy v
              then match to_string v with
                   | Some m => m
                   | None => convert_error eng
                   end
              else "Error al cargar equipos") /\
    (forall status,
        out = Response status (Parsed VNull) ->
        msg = read_error eng "null" "data"
                         (if ok status then "items" else "message")) /\
    (forall m, out = Rejected m -> msg = m) /\
    (forall status m, out = Response status (Unparseable m) -> msg = m).
Proof.
  intros Hfail.
  destruct (fetchEquipos_try_failure eng out Hfail) as [msg Hmsg].
  eexists. exists msg. split.
  - intros k. rewrite run_fetchEquipos_resume, Hmsg. reflexivity.
  - split; [reflexivity |]. split; [reflexivity |]. repeat split.
    + intros status data v -> Hok Hget.
      unfold fetchEquipos_try in Hmsg. rewrite Hok, Hget in Hmsg.
      cbn [negb bind] in Hmsg.
      destruct (truthy v) eqn:Ht.
      * destruct (to_string v) as [m |] eqn:Hs.
        -- rewrite (new_Error_present eng v _ m Ht Hs) in Hmsg.
           now inversion Hmsg.
        -- rewrite (new_Error_unprintable eng v _ Ht Hs) in Hmsg.
           now inversion Hmsg.
      * rewrite (new_Error_absent eng v _ Ht) in Hmsg.
        now inversion Hmsg.
    + intros status ->. unfold fetchEquipos_try in Hmsg.
      destruct (ok status); cbn in Hmsg; now inversion Hmsg.
    + intros m ->. now inversion Hmsg.
    + intros status m ->. now inversion Hmsg.
Qed.

Lemma list_failure_empties_records_witness :
  (exists st',
      run (fetchEquipos_resume v8 Done
             (Response 503 (Parsed (VObj [("message", VStr "Service down")]))))
          (typed emptyDraft)
      = Finished st' /\
      equipos st' = VArr [] /\ error st' = Some "Service down") /\
  (exists st',
      run (fetchEquipos_resume v8 Done (Response 200 (Parsed VNull)))
          (typed emptyDraft)
      = Finished st' /\
      equipos st' = VArr [] /\
      error st' = Some "Cannot read properties of null (reading 'items')").
Proof.
  split.
  - destruct (list_failure_empties_records v8
                (Response 503 (Parsed (VObj [("message", VStr "Service down")])))
                (typed emptyDraft))
      as (st' & msg & Hrun & Hrec & Herr & Hbody & _).
    + apply list_failure_request, failure_status. reflexivity.
    + exists st'. split; [apply (Hrun Done) |]. split; [exact Hrec |].
      rewrite Herr. f_equal.
      apply (Hbody 503 (VObj [("message", VStr "Service down")])
                   (VStr "Service down")); reflexivity.
  - destruct (list_failure_empties_records v8 (Response 200 (Parsed VNull))
                (typed emptyDraft))
      as (st' & msg & Hrun & Hrec & Herr & _ & Hnull & _).
    + apply list_failure_null.
    + exists st'. split; [apply (Hrun Done) |]. split; [exact Hrec |].
      rewrite Herr. f_equal. apply (Hnull 200). reflexivity.
Defined.

(** C4, as the specification states it, fails twice. A 2xx body of the wrong
    shape, [{items:"none"}], raises nothing: the text is stored as [records]
    and the error message is cleared.  And when no response arrives the
    error message is the text of the rejection, which is neither a message
    of the server nor the fallback "Error al cargar equipos". *)
Lemma list_wrong_shape_or_no_response :
  (exists st',
      run (fetchEquipos_resume v8 Done
             (Response 200 (Parsed (VObj [("items", VStr "none")]))))
          {| equipos := VArr [drill]; formValues := emptyDraft;
             loading := true; error := Some "Failed to fetch";
             success := None; deletingId := PNull |}
      = Finished st' /\
      equipos st' = VStr "none" /\ equipos st' <> VArr [] /\
      error st' = None) /\
  (exists st',
      run (fetchEquipos_resume v8 Done (Rejected "Failed to fetch"))
          (typed emptyDraft)
      = Finished st' /\
      error st' = Some "Failed to fetch" /\
      error st' <> Some "Error al cargar equipos").
Proof.
  split; eexists; (split; [reflexivity |]).
  - split; [reflexivity |]. split; [discriminate | reflexivity].
  - split; [reflexivity | discriminate].
Qed.

(* ================================================================== *)
(** ** remove *)

(** C6. When a confirmed [remove(id)] receives a 2xx response, the handler
    sets the success message and takes out of [records] every row whose [id]
    is [id], keeping the others in order; it is with the records so reduced
    that it sends one GET of the collection, and once that GET is answered,
    whatever the answer, it is finished: one POST and one GET were sent. *)
Theorem remove_success eng baseUrl (id : prim) status body (rows : list value)
        (st : State) (out : Outcome) :
  ok status = true ->
  equipos st = VArr rows -> Forall readable rows ->
  exists st1 st2,
    play [Response status body] (run (handleDelete eng baseUrl id true) st) =
    ([POST (baseUrl ++ "?id=" ++ prim_to_string id) (deleteForm id);
      GET baseUrl],
     Suspended st1 (GET baseUrl) (fetchEquipos_resume eng handleDelete_finally))
    /\ success st1 = Some "Equipo eliminado correctamente"
    /\ equipos st1 =
        VArr (filter (fun e => negb (strict_eq (record_id e) id)) rows)
    /\ play [Response status body; out]
             (run (handleDelete eng baseUrl id true) st) =
        ([POST (baseUrl ++ "?id=" ++ prim_to_string id) (deleteForm id);
          GET baseUrl],
         Finished st2)
    /\ success st2 = Some "Equipo eliminado correctamente"
    /\ deletingId st2 = PNull.
Proof.
  intros Hok Heq Hrows.
  rewrite run_handleDelete_confirmed. cbn [play].
  rewrite (run_handleDelete_resume_success eng baseUrl id status body rows
             {| equipos := equipos st; formValues := formValues st;
                loading := loading st; error := None; success := None;
                deletingId := id |} Hok Heq Hrows).
  cbn [play]. rewrite run_fetchEquipos_resume.
  eexists; eexists. split; [reflexivity |].
  split; [reflexivity |]. split; [reflexivity |]. split; [reflexivity |].
  destruct (fetchEquipos_try eng out); split; reflexivity.
Qed.

(** The scenario of the specification: [remove(1)] confirmed and answered
    with a 2xx takes the record with [id] 1 out at once. *)
Lemma remove_success_witness :
  exists st1 st2,
    play [Response 200 (Unparseable "Unexpected end of JSON input")]
         (run (handleDelete v8 baseUrl_Equipos (PNum 1) true)
              {| equipos := VArr [drill; saw]; formValues := emptyDraft;
                 loading := false; error := None; success := None;
                 deletingId := PNull |}) =
    ([POST (baseUrl_Equipos ++ "?id=1") [("_method", "DELETE"); ("id", "1")];
      GET baseUrl_Equipos],
     Suspended st1 (GET baseUrl_Equipos)
               (fetchEquipos_resume v8 handleDelete_finally))
    /\ success st1 = Some "Equipo eliminado correctamente"
    /\ equipos st1 = VArr [saw]
    /\ play [Response 200 (Unparseable "Unexpected end of JSON input");
              Response 200 (Parsed (VObj [("items", VArr [saw])]))]
             (run (handleDelete v8 baseUrl_Equipos (PNum 1) true)
                  {| equipos := VArr [drill; saw]; formValues := emptyDraft;
                     loading := false; error := None; success := None;
                     deletingId := PNull |}) =
        ([POST (baseUrl_Equipos ++ "?id=1") [("_method", "DELETE"); ("id", "1")];
          GET baseUrl_Equipos],
         Finished st2)
    /\ success st2 = Some "Equipo eliminado correctamente"
    /\ deletingId st2 = PNull.
Proof.
  apply (remove_success v8 baseUrl_Equipos (PNum 1) 200
           (Unparseable "Unexpected end of JSON input") [drill; saw]).
  - reflexivity.
  - reflexivity.
  - repeat constructor; discriminate.
Defined.


(* ================================================================== *)
(** ** The busy flag *)

Section BusyFlag.

Variable eng : Engine.
Variable baseUrl : string.

Lemma in_step_fetchEquipos (k : Prog) (st : State) :
  (forall st', loading st' = false -> in_step k st') ->
  in_step (fetchEquipos eng baseUrl k) st.
Proof.
  intros Hk. cbn. split; [reflexivity |].
  intros out st' _. unfold fetchEquipos_resume.
  destruct (fetchEquipos_try eng out); cbn; apply Hk; reflexivity.
Qed.

Lemma in_step_mount (st : State) : in_step (mount eng baseUrl) st.
Proof.
  apply in_step_fetchEquipos. intros st' H. exact H.
Qed.

Lemma in_step_handleSubmit_catch (msg : string) (st : State) :
  in_step (handleSubmit_catch msg) st.
Proof.
  unfold handleSubmit_catch. destruct (includes "555" msg); reflexivity.
Qed.

Lemma in_step_handleSubmit (d : Draft) (st : State) :
  in_step (handleSubmit eng baseUrl d) st.
Proof.
  unfold handleSubmit. cbn. destruct (incomplete d).
  - apply in_step_handleSubmit_catch.
  - cbn. split; [reflexivity |].
    intros out st' _. unfold handleSubmit_resume.
    destruct (handleSubmit_try eng out).
    + apply in_step_handleSubmit_catch.
    + cbn [in_step setSuccess setFormValues].
      apply in_step_fetchEquipos. reflexivity.
Qed.

Lemma in_step_handleDelete (id : prim) (confirmed : bool) (st : State) :
  loading st = false ->
  in_step (handleDelete eng baseUrl id confirmed) st.
Proof.
  intros Hidle. destruct confirmed; [| exact Hidle].
  cbn. split; [exact Hidle |].
  intros out st' Hsame. rewrite Hidle in Hsame.
  unfold handleDelete_resume.
  destruct out as [msg | status body]; [exact Hsame |].
  destruct (ok status); cbn [negb]; [| exact Hsame].
  cbn [in_step setSuccess]. destruct (removeRecord eng id _) eqn:Hrm;
    [| exact I].
  apply in_step_fetchEquipos. intros st'' H. exact H.
Qed.

Lemma in_step_handleChange (name : Field) (v : string) (st : State) :
  loading st = false -> in_step (handleChange name v) st.
Proof.
  intros H. exact H.
Qed.

(** Where a program that keeps in step stands at its next suspension. *)
Lemma run_in_step (p : Prog) :
  forall st, in_step p st ->
  match run p st with
  | Finished st' => loading st' = false
  | Suspended st' r k =>
      loading st' = negb (is_remove r) /\
      forall out st'', loading st'' = loading st' -> in_step (k out) st''
  | Crashed => True
  end.
Proof.
  induction p as [| u k IH | r k _]; intros st H; cbn in *.
  - exact H.
  - destruct (u st) as [st' |]; [apply IH; exact H | exact I].
  - exact H.
Qed.

Lemma launch_in_step (p : Prog) (s : System) :
  idle s = true -> in_step p (ui s) -> busy_invariant (launch p s).
Proof.
  unfold idle. intros Hidle Hp. apply run_in_step in Hp.
  unfold launch, busy_invariant.
  destruct (inflight s); [| discriminate].
  destruct (run p (ui s)) as [st' | st' r k |]; cbn.
  - intros _. exact Hp.
  - intros _. exact Hp.
  - discriminate.
Qed.

(** Typing into the form does not touch the flag or the waiting requests. *)
Lemma launch_handleChange (name : Field) (v : string) (s : System) :
  busy_invariant s -> alive s = true ->
  busy_invariant (launch (handleChange name v) s).
Proof.
  intros Hinv Halive. specialize (Hinv Halive).
  unfold busy_invariant, launch. cbn. intros _. exact Hinv.
Qed.

Lemma step_busy_invariant (s : System) (ev : Event) :
  busy_invariant s ->
  negb (starts_operation ev) || idle s = true ->
  busy_invariant (step eng baseUrl s ev).
Proof.
  intros Hinv Hseq. unfold step.
  destruct (alive s) eqn:Halive; cbn [negb]; [| exact Hinv].
  assert (Hidle : idle s = true -> loading (ui s) = false).
  { intros Hi. specialize (Hinv Halive). unfold idle in Hi.
    destruct (inflight s); [exact Hinv | discriminate]. }
  destruct ev as [| name v | | id confirmed | n out]; cbn in Hseq.
  - apply launch_in_step; [exact Hseq | apply in_step_mount].
  - apply launch_handleChange; assumption.
  - apply launch_in_step; [exact Hseq | apply in_step_handleSubmit].
  - apply launch_in_step; [exact Hseq |].
    apply in_step_handleDelete. apply Hidle. exact Hseq.
  - specialize (Hinv Halive).
    destruct (inflight s) as [| [r k] [| w rest]] eqn:Hfl.
    + destruct n; cbn; intros _; rewrite Hfl; exact Hinv.
    + destruct n as [| n]; cbn.
      * apply launch_in_step; [reflexivity |].
        apply Hinv. reflexivity.
      * destruct n; cbn; intros _; rewrite Hfl; exact Hinv.
    + contradiction.
Qed.

Lemma exec_busy_invariant (evs : list Event) :
  forall s, busy_invariant s -> sequential eng baseUrl evs s = true ->
            busy_invariant (exec eng baseUrl evs s).
Proof.
  induction evs as [| ev rest IH]; intros s Hinv Hseq; [exact Hinv |].
  cbn in Hseq. apply andb_true_iff in Hseq as [Hev Hrest].
  cbn. apply IH; [| exact Hrest].
  apply step_busy_invariant; assumption.
Qed.

End BusyFlag.

(** C2, as the code has it. In a run where no operation is started while a
    request waits for its response, [isBusy] is false whenever nothing
    waits, true for as long as the GET of [list] or the POST of [create]
    waits, and false while the POST of [remove] waits: [remove] sets
    [deletingId], not [isBusy], and only its closing [list] sets the flag. *)
Theorem busy_flag_sequential eng baseUrl (evs : list Event) :
  sequential eng baseUrl evs initialSystem = true ->
  let s := exec eng baseUrl evs initialSystem in
  alive s = true ->
  match map fst (inflight s) with
  | [] => loading (ui s) = false
  | [r] => loading (ui s) = negb (is_remove r)
  | _ :: _ :: _ => False
  end.
Proof.
  intros Hseq s Halive.
  assert (Hinv : busy_invariant s).
  { apply exec_busy_invariant; [| exact Hseq]. intros _. reflexivity. }
  specialize (Hinv Halive).
  destruct (inflight s) as [| [r k] [| w rest]]; cbn.
  - exact Hinv.
  - apply Hinv.
  - exact Hinv.
Qed.

Lemma busy_flag_sequential_witness :
  loading (ui (exec v8 baseUrl_Equipos
                    ([Mount; Respond 0 listed] ++ typing_saw ++ [Submit])
                    initialSystem)) = true.
Proof.
  exact (busy_flag_sequential v8 baseUrl_Equipos
           ([Mount; Respond 0 listed] ++ typing_saw ++ [Submit])
           eq_refl eq_refl).
Defined.

(** C2, as the specification states it, fails: after the list was loaded, a
    confirmed [remove(1)] has its POST waiting for the response while
    [isBusy] is false; the handler never sets it. *)
Lemma remove_request_not_busy :
  let s := exec v8 baseUrl_Equipos
                [Mount; Respond 0 listed; Delete (PNum 1) true] initialSystem in
  map fst (inflight s) =
  [POST (baseUrl_Equipos ++ "?id=1") [("_method", "DELETE"); ("id", "1")]] /\
  loading (ui s) = false /\
  deletingId (ui s) = PNum 1.
Proof.
  cbv zeta. repeat split; reflexivity.
Qed.

(** Outside sequential runs the flag does not follow the requests either:
    the delete buttons stay enabled while [loading], so the refresh after a
    create and the refresh after a remove can overlap, and the first one to
    be answered clears the flag while the second still waits. *)
Lemma overlapping_refreshes_clear_flag :
  let s := exec v8 baseUrl_Equipos
                ([Mount; Respond 0 listed] ++ typing_saw ++
                 [Submit; Respond 0 (Response 201 (Parsed VNull));
                  Delete (PNum 1) true;
                  Respond 1 (Response 200 (Parsed VNull));
                  Respond 0 listed])
                initialSystem in
  map fst (inflight s) = [GET baseUrl_Equipos] /\
  loading (ui s) = false /\
  alive s = true.
Proof.
  cbv zeta. repeat split; reflexivity.
Qed.


(* ================================================================== *)
(** ** The two copies *)

Section Simulation.

Variable eng : Engine.
Variables b1 b2 : string.

Lemma same_code_fetchEquipos_resume (k1 k2 : Prog) (out : Outcome) :
  same_code b1 b2 k1 k2 ->
  same_code b1 b2 (fetchEquipos_resume eng k1 out)
            (fetchEquipos_resume eng k2 out).
Proof.
  intros Hk. unfold fetchEquipos_resume.
  destruct (fetchEquipos_try eng out); repeat constructor; exact Hk.
Qed.

Lemma same_code_fetchEquipos (k1 k2 : Prog) :
  same_code b1 b2 k1 k2 ->
  same_code b1 b2 (fetchEquipos eng b1 k1) (fetchEquipos eng b2 k2).
Proof.
  intros Hk. unfold fetchEquipos. constructor. constructor.
  - apply same_GET.
  - intros out. apply same_code_fetchEquipos_resume, Hk.
Qed.

Lemma same_code_handleSubmit_catch (msg : string) :
  same_code b1 b2 (handleSubmit_catch msg) (handleSubmit_catch msg).
Proof.
  unfold handleSubmit_catch, handleSubmit_finally.
  destruct (includes "555" msg); repeat constructor.
Qed.

Lemma same_code_handleSubmit (d : Draft) :
  same_code b1 b2 (handleSubmit eng b1 d) (handleSubmit eng b2 d).
Proof.
  unfold handleSubmit. do 3 constructor. destruct (incomplete d).
  - apply same_code_handleSubmit_catch.
  - constructor; [apply same_POST |].
    intros out. unfold handleSubmit_resume.
    destruct (handleSubmit_try eng out).
    + apply same_code_handleSubmit_catch.
    + do 2 constructor. apply same_code_fetchEquipos.
      unfold handleSubmit_finally. repeat constructor.
Qed.

Lemma same_code_handleDelete (id : prim) (confirmed : bool) :
  same_code b1 b2 (handleDelete eng b1 id confirmed)
            (handleDelete eng b2 id confirmed).
Proof.
  unfold handleDelete. destruct confirmed; cbn [negb]; [| constructor].
  do 3 constructor. constructor; [apply same_POST_query |].
  intros out. unfold handleDelete_resume, handleDelete_finally.
  destruct out as [msg | status body]; [repeat constructor |].
  destruct (ok status); cbn [negb]; [| repeat constructor].
  do 2 constructor. apply same_code_fetchEquipos. repeat constructor.
Qed.

Lemma same_code_handleChange (name : Field) (v : string) :
  same_code b1 b2 (handleChange name v) (handleChange name v).
Proof.
  unfold handleChange. repeat constructor.
Qed.

(** The same code run from the same state stops at the same place. *)
Lemma run_same_code (p1 p2 : Prog) :
  same_code b1 b2 p1 p2 ->
  forall st, same_result b1 b2 (run p1 st) (run p2 st).
Proof.
  induction 1 as [| u k1 k2 _ IH | r1 r2 k1 k2 Hr Hk _]; intros st; cbn.
  - reflexivity.
  - destruct (u st) as [st' |]; [apply IH | exact I].
  - split; [reflexivity |]. split; assumption.
Qed.

Lemma launch_same_system (p1 p2 : Prog) (s1 s2 : System) :
  same_code b1 b2 p1 p2 -> same_system b1 b2 s1 s2 ->
  same_system b1 b2 (launch p1 s1) (launch p2 s2).
Proof.
  intros Hp (Hui & Halive & Hwait & Hsent).
  pose proof (run_same_code p1 p2 Hp (ui s1)) as Hrun.
  unfold launch. rewrite <- Hui.
  destruct (run p1 (ui s1)) as [st1 | st1 q1 k1 |],
           (run p2 (ui s1)) as [st2 | st2 q2 k2 |];
    cbn in Hrun; try contradiction.
  - subst st2. repeat split; assumption.
  - destruct Hrun as (-> & Hw). repeat split; cbn.
    + apply Forall2_app; [exact Hwait | constructor; [exact Hw | constructor]].
    + apply Forall2_app; [exact Hsent |].
      constructor; [apply Hw | constructor].
  - repeat split; assumption.
Qed.

Lemma Forall2_nth_error {A B} (R : A -> B -> Prop) (l1 : list A) (l2 : list B) :
  Forall2 R l1 l2 ->
  forall n,
    match nth_error l1 n, nth_error l2 n with
    | Some x, Some y => R x y
    | None, None => True
    | _, _ => False
    end.
Proof.
  induction 1 as [| x y l1 l2 Hxy _ IH]; intros [| n]; cbn;
    try exact I; [exact Hxy | apply IH].
Qed.

Lemma Forall2_drop_nth {A B} (R : A -> B -> Prop) (l1 : list A) (l2 : list B) :
  Forall2 R l1 l2 -> forall n, Forall2 R (drop_nth n l1) (drop_nth n l2).
Proof.
  induction 1 as [| x y l1 l2 Hxy Hrest IH]; intros [| n]; cbn;
    try constructor; auto.
Qed.

Lemma step_same_system (s1 s2 : System) (ev : Event) :
  same_system b1 b2 s1 s2 ->
  same_system b1 b2 (step eng b1 s1 ev) (step eng b2 s2 ev).
Proof.
  intros Hs. pose proof Hs as (Hui & Halive & Hwait & Hsent).
  unfold step. rewrite <- Halive.
  destruct (alive s1) eqn:Ha; cbn [negb]; [| exact Hs].
  destruct ev as [| name v | | id confirmed | n out].
  - apply launch_same_system; [| exact Hs].
    apply same_code_fetchEquipos. constructor.
  - apply launch_same_system; [apply same_code_handleChange | exact Hs].
  - rewrite <- Hui. apply launch_same_system;
      [apply same_code_handleSubmit | exact Hs].
  - apply launch_same_system; [apply same_code_handleDelete | exact Hs].
  - pose proof (Forall2_nth_error _ _ _ Hwait n) as Hn.
    destruct (nth_error (inflight s1) n) as [[q1 k1] |],
             (nth_error (inflight s2) n) as [[q2 k2] |];
      try contradiction; [| exact Hs].
    apply launch_same_system; [apply Hn |].
    repeat split; cbn; try assumption.
    apply Forall2_drop_nth, Hwait.
Qed.

Lemma exec_same_system (evs : list Event) :
  forall s1 s2,
    same_system b1 b2 s1 s2 ->
    same_system b1 b2 (exec eng b1 evs s1) (exec eng b2 evs s2).
Proof.
  induction evs as [| ev rest IH]; intros s1 s2 Hs; [exact Hs |].
  cbn. apply IH, step_same_system, Hs.
Qed.

End Simulation.

(** C3, as the code has it. For every sequence of user actions and backend
    responses, the two copies of the component go through the same states
    and send the same requests, each copy to its own collection: the copies
    differ in their base URL as well as in their styling. *)
Theorem copies_equivalent_up_to_baseUrl eng (evs : list Event) :
  let s1 := exec eng baseUrl_Equipos evs initialSystem in
  let s2 := exec eng baseUrl_part_000 evs initialSystem in
  ui s1 = ui s2 /\
  alive s1 = alive s2 /\
  Forall2 (same_request baseUrl_Equipos baseUrl_part_000) (sent s1) (sent s2) /\
  Forall2 (same_request baseUrl_Equipos baseUrl_part_000)
          (map fst (inflight s1)) (map fst (inflight s2)).
Proof.
  intros s1 s2.
  destruct (exec_same_system eng baseUrl_Equipos baseUrl_part_000 evs
              initialSystem initialSystem)
    as (Hui & Halive & Hwait & Hsent).
  { repeat split; constructor. }
  repeat split; try assumption.
  fold s1 s2 in Hwait. clear - Hwait.
  induction Hwait as [| w1 w2 l1 l2 [Hw _] _ IH]; cbn; constructor; assumption.
Qed.

(** C3, as the specification states it, fails: on activation one copy asks the
    collection of one APEX workspace and the other copy that of another. *)
Lemma copies_send_different_requests :
  sent (exec v8 baseUrl_Equipos [Mount] initialSystem) =
  [GET "https://apex.oracle.com/pls/apex/rogelioaluminios/equipos/"] /\
  sent (exec v8 baseUrl_part_000 [Mount] initialSystem) =
  [GET "https://apex.oracle.com/pls/apex/elrafas44/equipos/"] /\
  sent (exec v8 baseUrl_Equipos [Mount] initialSystem) <>
  sent (exec v8 baseUrl_part_000 [Mount] initialSystem).
Proof.
  split; [reflexivity |]. split; [reflexivity |]. discriminate.
Qed.


(* ================================================================== *)
(** ** The form *)

(** X1. [handleChange] writes the named field and nothing else: the field
    reads back the typed value, the three other fields and the five other
    cells are what they were, and no request is sent. *)
Theorem handleChange_sets_field (name : Field) (v : string) (st : State) :
  exists st',
    run (handleChange name v) st = Finished st' /\
    (forall other,
        field other (formValues st') =
        if field_eqb other name then v else field other (formValues st)) /\
    equipos st' = equipos st /\ loading st' = loading st /\
    error st' = error st /\ success st' = success st /\
    deletingId st' = deletingId st.
Proof.
  eexists. split; [reflexivity |]. split.
  - intros other. destruct name, other; reflexivity.
  - repeat split; reflexivity.
Qed.

Lemma step_Change eng baseUrl (s : System) (name : Field) (v : string) :
  alive s = true ->
  step eng baseUrl s (Change name v) =
  {| ui := {| equipos := equipos (ui s);
              formValues :=
                match name with
                | Fnombre =>
                    {| nombre := v; tipo := tipo (formValues (ui s));
                       ubicacion := ubicacion (formValues (ui s));
                       estado := estado (formValues (ui s)) |}
                | Ftipo =>
                    {| nombre := nombre (formValues (ui s)); tipo := v;
                       ubicacion := ubicacion (formValues (ui s));
                       estado := estado (formValues (ui s)) |}
                | Fubicacion =>
                    {| nombre := nombre (formValues (ui s));
                       tipo := tipo (formValues (ui s)); ubicacion := v;
                       estado := estado (formValues (ui s)) |}
                | Festado =>
                    {| nombre := nombre (formValues (ui s));
                       tipo := tipo (formValues (ui s));
                       ubicacion := ubicacion (formValues (ui s));
                       estado := v |}
                end;
              loading := loading (ui s); error := error (ui s);
              success := success (ui s); deletingId := deletingId (ui s) |};
     inflight := inflight s; sent := sent s; alive := true |}.
Proof.
  intros Halive. unfold step. rewrite Halive. reflexivity.
Qed.

(** X2. Typing composes field by field: changes to two different fields
    give the same component in either order, and of two changes to one field
    the later one alone counts. *)
Theorem handleChange_composes eng baseUrl (s : System)
        (n1 n2 : Field) (v1 v2 : string) :
  exec eng baseUrl [Change n1 v1; Change n2 v2] s =
  if field_eqb n1 n2 then exec eng baseUrl [Change n2 v2] s
  else exec eng baseUrl [Change n2 v2; Change n1 v1] s.
Proof.
  destruct (alive s) eqn:Halive.
  - cbn [exec fold_left].
    assert (H : forall n v, alive (step eng baseUrl s (Change n v)) = true).
    { intros n v. rewrite step_Change by exact Halive. reflexivity. }
    destruct n1, n2; cbn [field_eqb exec fold_left];
      rewrite !(step_Change eng baseUrl _ _ _ (H _ _));
      rewrite !(step_Change eng baseUrl s _ _ Halive); reflexivity.
  - assert (H : forall ev, step eng baseUrl s ev = s).
    { intros ev. unfold step. rewrite Halive. reflexivity. }
    destruct (field_eqb n1 n2); cbn [exec fold_left]; rewrite !H; reflexivity.
Qed.

(* ================================================================== *)
(** ** Declining a remove *)

Lemma step_Delete_declined eng baseUrl (s : System) (id : prim) :
  step eng baseUrl s (Delete id false) = s.
Proof.
  unfold step. destruct s as [st waiting log [|]]; reflexivity.
Qed.

(** X3. A remove the user declines in the confirmation dialog leaves no
    trace: a run with it and the run without it end in the same state, with
    the same requests waiting and sent. *)
Theorem declined_delete_leaves_no_trace eng baseUrl
        (before after : list Event) (id : prim) (s : System) :
  exec eng baseUrl (before ++ Delete id false :: after) s =
  exec eng baseUrl (before ++ after) s.
Proof.
  unfold exec. rewrite !fold_left_app. cbn [fold_left].
  rewrite step_Delete_declined. reflexivity.
Qed.


(* ================================================================== *)
(** ** Operations from start to end *)

(** X4. A confirmed remove that fails - no response, or a status outside
    200-299, whatever the body - sends its one POST and nothing more: the
    records, the draft and the busy flag are untouched, no success message is
    left, [deletingId] is reset, and the error message is the fixed text for
    a status and the message of the rejection otherwise. *)
Theorem remove_failure_keeps_records eng baseUrl (id : prim) (st : State)
        (out : Outcome) :
  remove_failure out ->
  exists st',
    play [out] (run (handleDelete eng baseUrl id true) st) =
    ([POST (baseUrl ++ "?id=" ++ prim_to_string id) (deleteForm id)],
     Finished st') /\
    equipos st' = equipos st /\ formValues st' = formValues st /\
    loading st' = loading st /\ success st' = None /\
    deletingId st' = PNull /\
    error st' = Some match out with
                     | Rejected msg => msg
                     | Response _ _ => "Error al eliminar equipo"
                     end.
Proof.
  intros [msg | status body Hok]; rewrite run_handleDelete_confirmed;
    cbn [play]; unfold handleDelete_resume; try rewrite Hok;
    eexists; (split; [reflexivity |]); repeat split; reflexivity.
Qed.

Lemma remove_failure_keeps_records_witness :
  exists st',
    play [Response 404 (Unparseable "Unexpected end of JSON input")]
         (run (handleDelete v8 baseUrl_Equipos (PNum 1) true) (typed sawDraft)) =
    ([POST (baseUrl_Equipos ++ "?id=1") [("_method", "DELETE"); ("id", "1")]],
     Finished st') /\
    equipos st' = VArr [drill] /\
    error st' = Some "Error al eliminar equipo".
Proof.
  destruct (remove_failure_keeps_records v8 baseUrl_Equipos (PNum 1)
              (typed sawDraft)
              (Response 404 (Unparseable "Unexpected end of JSON input")))
    as (st' & Hplay & Hrec & _ & _ & _ & _ & Herr).
  - apply remove_failure_status. reflexivity.
  - exists st'. split; [exact Hplay |]. split; [exact Hrec | exact Herr].
Defined.

(** X5. A create ends whatever the backend answers: for every draft and
    every two answers (to the POST and to the refresh), the handler is
    finished with [isBusy] false and [deletingId] untouched, after at most
    two requests. *)
Theorem create_always_finishes eng baseUrl (d : Draft) (st : State)
        (out1 out2 : Outcome) :
  exists log st',
    play [out1; out2] (run (handleSubmit eng baseUrl d) st) =
    (log, Finished st') /\
    (length log <= 2)%nat /\
    loading st' = false /\
    deletingId st' = deletingId st.
Proof.
  destruct (incomplete d) eqn:Hinc.
  - rewrite (run_handleSubmit_incomplete eng baseUrl d st Hinc).
    eexists; eexists. split; [reflexivity |]. cbn. repeat split; lia.
  - rewrite (run_handleSubmit_complete eng baseUrl d st Hinc). cbn [play].
    unfold handleSubmit_resume.
    destruct (handleSubmit_try eng out1) as [msg | []].
    + rewrite run_handleSubmit_catch.
      eexists; eexists. split; [reflexivity |]. cbn. repeat split; lia.
    + cbn [run setSuccess setFormValues fetchEquipos setLoading play].
      rewrite run_fetchEquipos_resume.
      eexists; eexists. split; [reflexivity |].
      destruct (fetchEquipos_try eng out2); cbn; repeat split; lia.
Qed.

(** X6. A confirmed remove on a table of rows ends whatever the backend
    answers: for every two answers the handler is finished with [deletingId]
    reset and the draft untouched, after at most two requests. *)
Theorem remove_always_finishes eng baseUrl (id : prim) (st : State)
        (rows : list value) (out1 out2 : Outcome) :
  equipos st = VArr rows -> Forall readable rows ->
  exists log st',
    play [out1; out2] (run (handleDelete eng baseUrl id true) st) =
    (log, Finished st') /\
    (length log <= 2)%nat /\
    deletingId st' = PNull /\
    formValues st' = formValues st.
Proof.
  intros Heq Hrows. rewrite run_handleDelete_confirmed. cbn [play].
  destruct out1 as [msg | status body].
  - eexists; eexists. split; [reflexivity |]. cbn. repeat split; lia.
  - destruct (ok status) eqn:Hok.
    + rewrite (run_handleDelete_resume_success eng baseUrl id status body rows
                 {| equipos := equipos st; formValues := formValues st;
                    loading := loading st; error := None; success := None;
                    deletingId := id |} Hok Heq Hrows).
      cbn [play]. rewrite run_fetchEquipos_resume.
      eexists; eexists. split; [reflexivity |].
      destruct (fetchEquipos_try eng out2); cbn; repeat split; lia.
    + unfold handleDelete_resume. rewrite Hok.
      eexists; eexists. split; [reflexivity |]. cbn. repeat split; lia.
Qed.

Lemma remove_always_finishes_witness :
  exists log st',
    play [Response 200 (Parsed VNull); Rejected "Failed to fetch"]
         (run (handleDelete v8 baseUrl_Equipos (PNum 1) true) (typed sawDraft)) =
    (log, Finished st') /\
    (length log <= 2)%nat /\
    deletingId st' = PNull /\
    formValues st' = sawDraft.
Proof.
  apply (remove_always_finishes v8 baseUrl_Equipos (PNum 1) (typed sawDraft)
           [drill]).
  - reflexivity.
  - repeat constructor; discriminate.
Defined.

(** X7. The success of a create and the failure of its refresh are both
    shown: when the POST of a complete draft is answered 2xx with JSON and
    the GET that follows fails, the handler ends with the success message
    set, an error message set, the records empty and the draft reset. *)
Theorem create_success_with_failed_refresh eng baseUrl (st : State)
        status data (out : Outcome) :
  all_fields_filled (formValues st) ->
  ok status = true ->
  list_failure out ->
  exists log st' msg,
    play [Response status (Parsed data); out]
         (run (handleSubmit eng baseUrl (formValues st)) st) =
    (log, Finished st') /\
    success st' = Some "Equipo registrado correctamente" /\
    error st' = Some msg /\
    equipos st' = VArr [] /\
    formValues st' = emptyDraft.
Proof.
  intros Hfilled Hok Hfail. apply incomplete_false_iff in Hfilled.
  rewrite (run_handleSubmit_complete eng baseUrl _ st Hfilled). cbn [play].
  rewrite (run_handleSubmit_resume_success eng baseUrl status data _ Hok).
  cbn [play]. rewrite run_fetchEquipos_resume.
  destruct (fetchEquipos_try_failure eng out Hfail) as [msg Hmsg].
  rewrite Hmsg. eexists; eexists; exists msg.
  split; [reflexivity |]. repeat split; reflexivity.
Qed.

Lemma create_success_with_failed_refresh_witness :
  exists log st' msg,
    play [Response 201 (Parsed (VObj [])); Rejected "Failed to fetch"]
         (run (handleSubmit v8 baseUrl_Equipos sawDraft) (typed sawDraft)) =
    (log, Finished st') /\
    success st' = Some "Equipo registrado correctamente" /\
    error st' = Some msg /\
    equipos st' = VArr [] /\
    formValues st' = emptyDraft.
Proof.
  apply (create_success_with_failed_refresh v8 baseUrl_Equipos
           (typed sawDraft) 201 (VObj []) (Rejected "Failed to fetch")).
  - repeat split; discriminate.
  - reflexivity.
  - apply list_failure_request, failure_network.
Defined.

(* ================================================================== *)
(** ** More on list *)

(** X8. A list never fails towards its caller and touches three cells only:
    whatever the answer to its GET, it ends with [isBusy] false and with the
    draft, the success message and [deletingId] as they were, having sent
    that one GET. *)
Theorem list_always_finishes eng baseUrl (st : State) (out : Outcome) :
  exists st',
    play [out] (run (mount eng baseUrl) st) = ([GET baseUrl], Finished st') /\
    loading st' = false /\
    formValues st' = formValues st /\
    success st' = success st /\
    deletingId st' = deletingId st.
Proof.
  unfold mount, fetchEquipos. cbn [run setLoading play].
  rewrite run_fetchEquipos_resume.
  eexists. split; [reflexivity |].
  destruct (fetchEquipos_try eng out); repeat split; reflexivity.
Qed.

(** X9. A list does not check what [items] is: on a 2xx response whose body
    can be read, a truthy [items] becomes [records] as it is, array or not,
    and a falsy one ([null], [0], [false], the empty string, or none) gives
    the empty sequence. *)
Theorem list_stores_items_unchecked eng status data (items : value)
        (st : State) :
  ok status = true ->
  get eng data "data" "items" = inr items ->
  exists st',
    (forall k, run (fetchEquipos_resume eng k (Response status (Parsed data))) st
               = run k st') /\
    equipos st' = (if truthy items then items else VArr []) /\
    error st' = None.
Proof.
  intros Hok Hget. eexists. split.
  - intros k. rewrite run_fetchEquipos_resume.
    unfold fetchEquipos_try. rewrite Hok, Hget. cbn [negb bind ret].
    reflexivity.
  - split; reflexivity.
Qed.

Lemma list_stores_items_unchecked_witness :
  exists st',
    (forall k,
        run (fetchEquipos_resume v8 k
               (Response 200 (Parsed (VObj [("items", VStr "none")]))))
            (typed sawDraft)
        = run k st') /\
    equipos st' = VStr "none" /\
    error st' = None.
Proof.
  apply (list_stores_items_unchecked v8 200
           (VObj [("items", VStr "none")]) (VStr "none") (typed sawDraft));
    reflexivity.
Defined.


(* ================================================================== *)
(** ** More on create *)

(** X10. A 555 response to a create whose JSON body has no message (none, or
    a falsy one) gives the error message "Error en el servidor ORDS (555)"
    followed by the hint; no success message is set and the draft stays. *)
Theorem create_555_fallback_has_hint eng baseUrl data (v : value)
        (st : State) :
  get eng data "data" "message" = inr v ->
  truthy v = false ->
  exists st',
    run (handleSubmit_resume eng baseUrl (Response 555 (Parsed data))) st =
    Finished st' /\
    error st' =
    Some "Error en el servidor ORDS (555) - Verifica la configuración del endpoint REST"
    /\ success st' = success st
    /\ formValues st' = formValues st.
Proof.
  intros Hget Ht. unfold handleSubmit_resume, handleSubmit_try.
  change (ok 555) with false. change (555 =? 555) with true.
  cbn [negb]. rewrite Hget. cbn [bind].
  rewrite (new_Error_absent eng v _ Ht). cbn [bind throw].
  rewrite run_handleSubmit_catch.
  eexists. split; [reflexivity |]. repeat split; reflexivity.
Qed.

Lemma create_555_fallback_has_hint_witness :
  exists st',
    run (handleSubmit_resume v8 baseUrl_Equipos
           (Response 555 (Parsed (VObj [("message", VStr "")]))))
        (typed sawDraft) =
    Finished st' /\
    error st' =
    Some "Error en el servidor ORDS (555) - Verifica la configuración del endpoint REST"
    /\ success st' = None
    /\ formValues st' = sawDraft.
Proof.
  apply (create_555_fallback_has_hint v8 baseUrl_Equipos
           (VObj [("message", VStr "")]) (VStr "") (typed sawDraft));
    reflexivity.
Defined.

(** X11. When the POST of a create gets no response, or a response whose
    body is not JSON (whatever its status), the error message is the message
    of the rejection, followed by the hint exactly when that text contains
    "555"; the handler is finished, not busy, without success message, with
    the draft as it was and no refresh. *)
Theorem create_rejection_message eng baseUrl (out : Outcome) (msg : string)
        (st : State) :
  out = Rejected msg \/ (exists status, out = Response status (Unparseable msg)) ->
  exists st',
    run (handleSubmit_resume eng baseUrl out) st = Finished st' /\
    error st' = Some (if includes "555" msg then msg ++ hint else msg) /\
    loading st' = false /\
    success st' = success st /\
    formValues st' = formValues st.
Proof.
  intros [-> | [status ->]]; unfold handleSubmit_resume;
    cbn [handleSubmit_try throw]; rewrite run_handleSubmit_catch;
    eexists; (split; [reflexivity |]); repeat split; reflexivity.
Qed.

Lemma create_rejection_message_witness :
  exists st',
    run (handleSubmit_resume v8 baseUrl_Equipos
           (Rejected "connect ECONNREFUSED 10.0.0.7:5555"))
        (typed sawDraft) =
    Finished st' /\
    error st' = Some ("connect ECONNREFUSED 10.0.0.7:5555" ++ hint) /\
    loading st' = false /\
    success st' = None /\
    formValues st' = sawDraft.
Proof.
  apply (create_rejection_message v8 baseUrl_Equipos
           (Rejected "connect ECONNREFUSED 10.0.0.7:5555")
           "connect ECONNREFUSED 10.0.0.7:5555" (typed sawDraft)).
  left. reflexivity.
Defined.

(** Typing changes the draft and nothing else of the component. *)
Lemma exec_changes eng baseUrl (edits : list Event) :
  forallb is_change edits = true ->
  forall s, alive s = true ->
    let s' := exec eng baseUrl edits s in
    inflight s' = inflight s /\ sent s' = sent s /\ alive s' = true /\
    loading (ui s') = loading (ui s) /\ equipos (ui s') = equipos (ui s).
Proof.
  induction edits as [| ev rest IH]; intros Hall s Halive.
  - cbn. repeat split. exact Halive.
  - cbn in Hall. apply andb_true_iff in Hall as [Hev Hrest].
    destruct ev as [| name v | | |]; try discriminate.
    cbn [exec fold_left].
    specialize (IH Hrest (step eng baseUrl s (Change name v))).
    rewrite (step_Change eng baseUrl s name v Halive) in IH |- *.
    apply IH. reflexivity.
Qed.

(** X12. What the user types while the POST of a create waits is lost when
    the create succeeds: from a component with nothing waiting and a complete
    draft, a submit, any typing, and a 2xx JSON answer leave the draft empty;
    the POST carried the draft as it was at the submit, and one GET follows. *)
Theorem typing_during_create_is_discarded eng baseUrl (s : System)
        (edits : list Event) status data :
  alive s = true -> inflight s = [] ->
  all_fields_filled (formValues (ui s)) ->
  forallb is_change edits = true ->
  ok status = true ->
  let s' := exec eng baseUrl
                 (Submit :: edits ++ [Respond 0 (Response status (Parsed data))])
                 s in
  formValues (ui s') = emptyDraft /\
  success (ui s') = Some "Equipo registrado correctamente" /\
  sent s' = (sent s ++ [POST baseUrl (createForm (formValues (ui s)));
                        GET baseUrl])%list.
Proof.
  intros Halive Hidle Hfilled Hedits Hok s'. subst s'.
  apply incomplete_false_iff in Hfilled.
  unfold exec. cbn [fold_left]. rewrite fold_left_app. cbn [fold_left].
  fold (exec eng baseUrl edits (step eng baseUrl s Submit)).
  set (s1 := step eng baseUrl s Submit).
  assert (H1 : alive s1 = true /\
               inflight s1 = [(POST baseUrl (createForm (formValues (ui s))),
                               handleSubmit_resume eng baseUrl)] /\
               sent s1 = (sent s ++
                          [POST baseUrl (createForm (formValues (ui s)))])%list).
  { subst s1. unfold step, launch. rewrite Halive. cbn [negb].
    rewrite (run_handleSubmit_complete eng baseUrl _ (ui s) Hfilled).
    cbn. rewrite Hidle. repeat split. }
  destruct H1 as (Ha1 & Hw1 & Hs1).
  destruct (exec_changes eng baseUrl edits Hedits s1 Ha1)
    as (Hw2 & Hs2 & Ha2 & _ & _).
  set (s2 := exec eng baseUrl edits s1) in *.
  unfold step. rewrite Ha2, Hw2, Hw1. cbn [negb nth_error drop_nth].
  unfold launch. cbn [ui].
  rewrite (run_handleSubmit_resume_success eng baseUrl status data _ Hok).
  cbn. rewrite Hs2, Hs1, <- app_assoc. repeat split.
Qed.

Lemma typing_during_create_is_discarded_witness :
  let s := {| ui := typed sawDraft; inflight := []; sent := [];
              alive := true |} in
  let s' := exec v8 baseUrl_Equipos
                 (Submit :: [Change Fnombre "Hammer"] ++
                  [Respond 0 (Response 201 (Parsed (VObj [])))]) s in
  formValues (ui s') = emptyDraft /\
  success (ui s') = Some "Equipo registrado correctamente" /\
  sent s' = [POST baseUrl_Equipos (createForm sawDraft); GET baseUrl_Equipos].
Proof.
  intros s.
  apply (typing_during_create_is_discarded v8 baseUrl_Equipos s
           [Change Fnombre "Hammer"] 201 (VObj [])).
  - reflexivity.
  - reflexivity.
  - repeat split; discriminate.
  - reflexivity.
  - reflexivity.
Defined.


(* ================================================================== *)
(** ** The optimistic removal *)

Lemma filter_rows_facts (id : prim) (rows : list value) :
  let keep := fun e => negb (strict_eq (record_id e) id) in
  Forall (fun e => strict_eq (record_id e) id = false) (filter keep rows) /\
  (Forall readable rows -> Forall readable (filter keep rows)) /\
  (length (filter keep rows) <= length rows)%nat /\
  filter keep (filter keep rows) = filter keep rows /\
  (Forall (fun e => strict_eq (record_id e) id = false) rows ->
   filter keep rows = rows).
Proof.
  intros keep. induction rows as [| e rows (IH1 & IH2 & IH3 & IH4 & IH5)].
  - cbn. repeat split; auto.
  - assert (Hkeep : keep e = negb (strict_eq (record_id e) id)) by reflexivity.
    cbn [filter length].
    destruct (strict_eq (record_id e) id) eqn:He; cbn [negb] in Hkeep;
      rewrite Hkeep.
    + split; [exact IH1 |]. split; [| split; [| split]].
      * intros H. inversion H; auto.
      * lia.
      * exact IH4.
      * intros H. inversion H; congruence.
    + split; [constructor; assumption |]. split; [| split; [| split]].
      * intros H. inversion H; subst. constructor; auto.
      * cbn [length]. lia.
      * cbn [filter]. rewrite Hkeep. f_equal. exact IH4.
      * intros H. inversion H; subst. f_equal. auto.
Qed.

(** X13. The optimistic removal on a table of rows: it leaves no row with
    the given [id] and no more rows than before, changes no other cell,
    changes nothing at all when no row has that [id], and done twice is the
    same as done once. *)
Theorem removeRecord_on_rows eng (id : prim) (st : State) (rows : list value) :
  equipos st = VArr rows -> Forall readable rows ->
  exists st' rows',
    removeRecord eng id st = Some st' /\
    equipos st' = VArr rows' /\
    Forall (fun e => strict_eq (record_id e) id = false) rows' /\
    (length rows' <= length rows)%nat /\
    (formValues st' = formValues st /\ loading st' = loading st /\
     error st' = error st /\ success st' = success st /\
     deletingId st' = deletingId st) /\
    (Forall (fun e => strict_eq (record_id e) id = false) rows ->
     rows' = rows) /\
    removeRecord eng id st' = Some st'.
Proof.
  intros Heq Hrows.
  destruct (filter_rows_facts id rows) as (H1 & H2 & H3 & H4 & H5).
  eexists; eexists. split.
  - unfold removeRecord. rewrite Heq, (js_filter_rows eng id rows Hrows).
    reflexivity.
  - split; [reflexivity |]. split; [exact H1 |]. split; [exact H3 |].
    split; [repeat split; reflexivity |]. split; [exact H5 |].
    unfold removeRecord. cbn [equipos].
    rewrite (js_filter_rows eng id _ (H2 Hrows)), H4. reflexivity.
Qed.

Lemma removeRecord_on_rows_witness :
  exists st' rows',
    removeRecord v8 (PNum 7) (typed sawDraft) = Some st' /\
    equipos st' = VArr rows' /\
    Forall (fun e => strict_eq (record_id e) (PNum 7) = false) rows' /\
    (length rows' <= 1)%nat /\
    (formValues st' = sawDraft /\ loading st' = false /\
     error st' = None /\ success st' = None /\
     deletingId st' = PNull) /\
    (Forall (fun e => strict_eq (record_id e) (PNum 7) = false) [drill] ->
     rows' = [drill]) /\
    removeRecord v8 (PNum 7) st' = Some st'.
Proof.
  apply (removeRecord_on_rows v8 (PNum 7) (typed sawDraft) [drill]).
  - reflexivity.
  - repeat constructor; discriminate.
Defined.

(* ================================================================== *)
(** ** The delete buttons *)

(** X14. The guard of the delete buttons is the truthiness of [deletingId]:
    a remove of a falsy identifier (0, the empty string, [false], [null])
    leaves every delete button enabled while its POST waits, so that a
    second remove is offered and its POST is sent beside the first. *)
Theorem falsy_id_leaves_delete_enabled eng baseUrl (s : System)
        (id id' : prim) :
  alive s = true ->
  prim_truthy id = false ->
  let s1 := step eng baseUrl s (Delete id true) in
  let s2 := step eng baseUrl s1 (Delete id' true) in
  deleteDisabled (ui s1) = false /\
  offered s1 (Delete id' true) = true /\
  map fst (inflight s2) =
  (map fst (inflight s) ++
   [POST (baseUrl ++ "?id=" ++ prim_to_string id) (deleteForm id);
    POST (baseUrl ++ "?id=" ++ prim_to_string id') (deleteForm id')])%list.
Proof.
  intros Halive Hfalsy s1 s2.
  assert (H1 : s1 = {| ui := {| equipos := equipos (ui s);
                                formValues := formValues (ui s);
                                loading := loading (ui s); error := None;
                                success := None; deletingId := id |};
                       inflight :=
                         (inflight s ++
                          [(POST (baseUrl ++ "?id=" ++ prim_to_string id)
                                 (deleteForm id),
                            handleDelete_resume eng baseUrl id)])%list;
                       sent :=
                         (sent s ++
                          [POST (baseUrl ++ "?id=" ++ prim_to_string id)
                                (deleteForm id)])%list;
                       alive := true |}).
  { subst s1. unfold step. rewrite Halive. reflexivity. }
  split; [rewrite H1; exact Hfalsy |].
  split; [rewrite H1; cbn; unfold deleteDisabled; cbn; now rewrite Hfalsy |].
  subst s2. rewrite H1. unfold step. cbn.
  rewrite !map_app, <- app_assoc. reflexivity.
Qed.

Lemma falsy_id_leaves_delete_enabled_witness :
  let s := {| ui := typed emptyDraft; inflight := []; sent := [];
              alive := true |} in
  let s1 := step v8 baseUrl_Equipos s (Delete (PNum 0) true) in
  let s2 := step v8 baseUrl_Equipos s1 (Delete (PNum 1) true) in
  deleteDisabled (ui s1) = false /\
  offered s1 (Delete (PNum 1) true) = true /\
  map fst (inflight s2) =
  [POST (baseUrl_Equipos ++ "?id=0") [("_method", "DELETE"); ("id", "0")];
   POST (baseUrl_Equipos ++ "?id=1") [("_method", "DELETE"); ("id", "1")]].
Proof.
  intros s.
  apply (falsy_id_leaves_delete_enabled v8 baseUrl_Equipos s (PNum 0) (PNum 1));
    reflexivity.
Defined.


(* ================================================================== *)
(** ** Records stay rows *)

Lemma Forall_drop_nth {A} (P : A -> Prop) (l : list A) :
  Forall P l -> forall n, Forall P (drop_nth n l).
Proof.
  induction 1 as [| x l Hx Hl IH]; intros [| n]; cbn;
    try constructor; auto.
Qed.

Lemma Forall_nth_error_Some {A} (P : A -> Prop) (l : list A) (n : nat) (x : A) :
  Forall P l -> nth_error l n = Some x -> P x.
Proof.
  intros Hall Hn. rewrite Forall_forall in Hall.
  apply Hall. eapply nth_error_In. exact Hn.
Qed.

Lemma rows_ok_same (st st' : State) :
  equipos st' = equipos st -> rows_ok st -> rows_ok st'.
Proof.
  intros Heq (rows & Hrows & Hall). exists rows. split; [congruence | exact Hall].
Qed.

Section Rows.

Variable eng : Engine.
Variable baseUrl : string.

(** What a well-formed response makes [fetchEquipos] store is rows. *)
Lemma fetchEquipos_try_rows (out : Outcome) (items : value) :
  well_formed out -> fetchEquipos_try eng out = inr items ->
  exists rows, items = VArr rows /\ Forall readable rows.
Proof.
  intros Hwf Htry.
  destruct out as [msg | status [msg | data]]; try discriminate.
  unfold fetchEquipos_try in Htry.
  destruct (ok status); cbn [negb] in Htry.
  - assert (Hempty : exists rows : list value,
               VArr [] = VArr rows /\ Forall readable rows)
      by (exists []; split; [reflexivity | constructor]).
    destruct data; cbn in Htry; try discriminate;
      try (inversion Htry; subst; exact Hempty).
    cbn in Hwf. destruct (lookup "items" props) as [found |].
    + unfold js_or in Htry. destruct Hwf as [Hfalsy | (rows & -> & Hrows)].
      * rewrite Hfalsy in Htry. inversion Htry; subst. exact Hempty.
      * cbn in Htry. inversion Htry; subst. exists rows. split; auto.
    + cbn in Htry. inversion Htry; subst. exact Hempty.
  - destruct (get eng data "data" "message"); cbn [bind] in Htry;
      [discriminate |].
    match type of Htry with
    | context [new_Error eng ?v] => destruct (new_Error eng v)
    end; discriminate.
Qed.

Lemma keeps_rows_fetchEquipos (k : Prog) (st : State) :
  (forall st', rows_ok st' -> keeps_rows k st') ->
  rows_ok st -> keeps_rows (fetchEquipos eng baseUrl k) st.
Proof.
  intros Hk Hst. cbn [fetchEquipos keeps_rows setLoading].
  eexists. split; [reflexivity |]. split.
  - eapply rows_ok_same; [| exact Hst]. reflexivity.
  - intros out st' Hwf _. unfold fetchEquipos_resume.
    destruct (fetchEquipos_try eng out) as [msg | items] eqn:Htry;
      cbn [keeps_rows setEquipos setError setLoading];
      (eexists; split; [reflexivity |]);
      (eexists; split; [reflexivity |]);
      (eexists; split; [reflexivity |]); apply Hk.
    + exists []. split; [reflexivity | constructor].
    + destruct (fetchEquipos_try_rows out items Hwf Htry) as (rows & -> & Hr).
      exists rows. split; [reflexivity | exact Hr].
Qed.

Lemma keeps_rows_handleSubmit_catch (msg : string) (st : State) :
  rows_ok st -> keeps_rows (handleSubmit_catch msg) st.
Proof.
  intros Hst. unfold handleSubmit_catch, handleSubmit_finally.
  destruct (includes "555" msg); cbn [keeps_rows setError setLoading];
    repeat (eexists; split; [reflexivity |]);
    (eapply rows_ok_same; [| exact Hst]); reflexivity.
Qed.

Lemma keeps_rows_handleSubmit (d : Draft) (st : State) :
  rows_ok st -> keeps_rows (handleSubmit eng baseUrl d) st.
Proof.
  intros Hst. unfold handleSubmit.
  cbn [keeps_rows setLoading setError setSuccess].
  do 3 (eexists; split; [reflexivity |]).
  destruct (incomplete d).
  - apply keeps_rows_handleSubmit_catch.
    eapply rows_ok_same; [| exact Hst]. reflexivity.
  - cbn [keeps_rows]. split.
    + eapply rows_ok_same; [| exact Hst]. reflexivity.
    + intros out st' _ Hst'. unfold handleSubmit_resume.
      destruct (handleSubmit_try eng out).
      * apply keeps_rows_handleSubmit_catch, Hst'.
      * cbn [keeps_rows setSuccess setFormValues].
        do 2 (eexists; split; [reflexivity |]).
        apply keeps_rows_fetchEquipos.
        -- intros st'' Hst''. unfold handleSubmit_finally.
           cbn [keeps_rows setLoading]. eexists. split; [reflexivity |].
           eapply rows_ok_same; [| exact Hst'']. reflexivity.
        -- eapply rows_ok_same; [| exact Hst']. reflexivity.
Qed.

Lemma keeps_rows_handleDelete_finally (st : State) :
  rows_ok st -> keeps_rows handleDelete_finally st.
Proof.
  intros Hst. unfold handleDelete_finally. cbn [keeps_rows setDeletingId].
  eexists. split; [reflexivity |].
  eapply rows_ok_same; [| exact Hst]. reflexivity.
Qed.

Lemma removeRecord_rows_ok (id : prim) (st : State) :
  rows_ok st ->
  exists st', removeRecord eng id st = Some st' /\ rows_ok st'.
Proof.
  intros (rows & Heq & Hrows).
  unfold removeRecord. rewrite Heq, (js_filter_rows eng id rows Hrows).
  eexists. split; [reflexivity |].
  eexists. split; [reflexivity |].
  apply (filter_rows_facts id rows), Hrows.
Qed.

Lemma keeps_rows_handleDelete (id : prim) (confirmed : bool) (st : State) :
  rows_ok st -> keeps_rows (handleDelete eng baseUrl id confirmed) st.
Proof.
  intros Hst. unfold handleDelete.
  destruct confirmed; cbn [negb]; [| exact Hst].
  cbn [keeps_rows setDeletingId setError setSuccess].
  do 3 (eexists; split; [reflexivity |]). split.
  - eapply rows_ok_same; [| exact Hst]. reflexivity.
  - intros out st' _ Hst'. unfold handleDelete_resume.
    destruct out as [msg | status body].
    + cbn [keeps_rows setError]. eexists. split; [reflexivity |].
      apply keeps_rows_handleDelete_finally.
      eapply rows_ok_same; [| exact Hst']. reflexivity.
    + destruct (ok status); cbn [negb].
      * cbn [keeps_rows setSuccess]. eexists. split; [reflexivity |].
        destruct (removeRecord_rows_ok id
                    {| equipos := equipos st'; formValues := formValues st';
                       loading := loading st'; error := error st';
                       success := Some "Equipo eliminado correctamente";
                       deletingId := deletingId st' |})
          as (st'' & Hrm & Hst'').
        { eapply rows_ok_same; [| exact Hst']. reflexivity. }
        exists st''. split; [exact Hrm |].
        apply keeps_rows_fetchEquipos;
          [apply keeps_rows_handleDelete_finally | exact Hst''].
      * cbn [keeps_rows setError]. eexists. split; [reflexivity |].
        apply keeps_rows_handleDelete_finally.
        eapply rows_ok_same; [| exact Hst']. reflexivity.
Qed.

Lemma run_keeps_rows (p : Prog) :
  forall st, keeps_rows p st ->
  match run p st with
  | Finished st' => rows_ok st'
  | Suspended st' r k => rows_ok st' /\ keeps_rows_entry (r, k)
  | Crashed => False
  end.
Proof.
  induction p as [| u k IH | r k _]; intros st H; cbn in *.
  - exact H.
  - destruct H as (st' & -> & H). apply IH, H.
  - exact H.
Qed.

Lemma launch_keeps_rows (p : Prog) (s : System) :
  Forall keeps_rows_entry (inflight s) ->
  keeps_rows p (ui s) -> rows_invariant (launch p s).
Proof.
  intros Hwait Hp. apply run_keeps_rows in Hp. unfold launch, rows_invariant.
  destruct (run p (ui s)) as [st' | st' r k |]; cbn; [| | contradiction].
  - repeat split; assumption.
  - destruct Hp as [Hst' Hk]. repeat split; try assumption.
    apply Forall_app. split; [exact Hwait | constructor; [exact Hk | constructor]].
Qed.

Lemma step_rows_invariant (s : System) (ev : Event) :
  rows_invariant s -> well_formed_event ev ->
  rows_invariant (step eng baseUrl s ev).
Proof.
  intros (Halive & Hst & Hwait) Hwf. unfold step. rewrite Halive. cbn [negb].
  destruct ev as [| name v | | id confirmed | n out].
  - apply launch_keeps_rows; [exact Hwait |].
    apply keeps_rows_fetchEquipos; [intros st' H; exact H | exact Hst].
  - apply launch_keeps_rows; [exact Hwait |].
    unfold handleChange. cbn [keeps_rows setFormValues].
    eexists. split; [reflexivity |].
    eapply rows_ok_same; [| exact Hst]. reflexivity.
  - apply launch_keeps_rows; [exact Hwait |].
    apply keeps_rows_handleSubmit, Hst.
  - apply launch_keeps_rows; [exact Hwait |].
    apply keeps_rows_handleDelete, Hst.
  - destruct (nth_error (inflight s) n) as [[r k] |] eqn:Hn.
    + apply launch_keeps_rows; cbn [inflight ui].
      * apply Forall_drop_nth, Hwait.
      * apply (Forall_nth_error_Some _ _ _ _ Hwait Hn out (ui s) Hwf Hst).
    + repeat split; assumption.
Qed.

End Rows.

(** X15. With a backend whose responses are well formed - [items], when a
    JSON object body has a truthy one, is an array without [null] - the
    records are, after every sequence of actions and responses in any order,
    an array of rows, and no state updater has thrown. *)
Theorem records_stay_rows eng baseUrl (evs : list Event) :
  Forall well_formed_event evs ->
  let s := exec eng baseUrl evs initialSystem in
  alive s = true /\ rows_ok (ui s).
Proof.
  intros Hwf s.
  assert (Hinv : rows_invariant s).
  { subst s. assert (H0 : rows_invariant initialSystem).
    { repeat split; [| constructor].
      exists []. split; [reflexivity | constructor]. }
    revert H0. generalize initialSystem.
    induction Hwf as [| ev rest Hev _ IH]; intros s0 H0; [exact H0 |].
    cbn [exec fold_left]. apply IH, step_rows_invariant; assumption. }
  destruct Hinv as (Halive & Hrows & _). split; assumption.
Qed.

Lemma records_stay_rows_witness :
  let s := exec v8 baseUrl_Equipos
                [Mount; Respond 0 listed; Delete (PNum 1) true;
                 Respond 0 (Response 200 (Unparseable "Unexpected end of JSON input"));
                 Respond 0 (Response 200 (Parsed (VObj [("items", VNull)])))]
                initialSystem in
  alive s = true /\ rows_ok (ui s).
Proof.
  apply (records_stay_rows v8 baseUrl_Equipos).
  repeat match goal with
         | |- Forall _ _ => constructor
         end; try exact I.
  - right. exists [drill]. split; [reflexivity |].
    repeat constructor; discriminate.
  - left. reflexivity.
Defined.


(* ================================================================== *)
(** ** One remove at a time *)

(** Which of the waiting entries of [l1 ++ w :: l2] the [n]-th one is, and
    what is left without it. *)
Lemma nth_error_middle {A} (l1 : list A) (w : A) (l2 : list A) :
  forall (n : nat) (x : A),
    nth_error (l1 ++ w :: l2) n = Some x ->
    (nth_error l1 n = Some x /\
     drop_nth n (l1 ++ w :: l2) = (drop_nth n l1 ++ w :: l2)%list) \/
    (x = w /\ drop_nth n (l1 ++ w :: l2) = (l1 ++ l2)%list) \/
    (exists m, nth_error l2 m = Some x /\
               drop_nth n (l1 ++ w :: l2) = (l1 ++ w :: drop_nth m l2)%list).
Proof.
  induction l1 as [| a l1 IH]; intros [| n] x H; cbn in H |- *.
  - right; left. split; [congruence | reflexivity].
  - right; right. exists n. split; [exact H | reflexivity].
  - left. split; [exact H | reflexivity].
  - destruct (IH n x H) as [[H1 H2] | [[H1 H2] | (m & H1 & H2)]].
    + left. split; [exact H1 | now rewrite H2].
    + right; left. split; [exact H1 | now rewrite H2].
    + right; right. exists m. split; [exact H1 | now rewrite H2].
Qed.

Lemma filter_bystanders (l : list (Request * (Outcome -> Prog))) :
  Forall bystander_entry l -> filter is_remove (map fst l) = [].
Proof.
  induction 1 as [| w l [Hw _] _ IH]; [reflexivity |].
  cbn. rewrite Hw. exact IH.
Qed.

Section OneRemove.

Variable eng : Engine.
Variable baseUrl : string.

Lemma bystander_fetchEquipos (k : Prog) :
  (forall st, bystander k st) ->
  forall st, bystander (fetchEquipos eng baseUrl k) st.
Proof.
  intros Hk st. cbn. split; [reflexivity |]. split; [reflexivity |].
  intros out st'. unfold fetchEquipos_resume.
  destruct (fetchEquipos_try eng out); cbn; repeat split; apply Hk.
Qed.

Lemma bystander_handleSubmit_catch (msg : string) (st : State) :
  bystander (handleSubmit_catch msg) st.
Proof.
  unfold handleSubmit_catch. destruct (includes "555" msg); cbn; repeat split.
Qed.

Lemma bystander_handleSubmit (d : Draft) (st : State) :
  bystander (handleSubmit eng baseUrl d) st.
Proof.
  unfold handleSubmit. cbn [bystander setLoading setError setSuccess].
  do 3 (split; [reflexivity |]). destruct (incomplete d).
  - apply bystander_handleSubmit_catch.
  - cbn [bystander]. split; [reflexivity |].
    intros out st'. unfold handleSubmit_resume.
    destruct (handleSubmit_try eng out).
    + apply bystander_handleSubmit_catch.
    + cbn [bystander setSuccess setFormValues].
      do 2 (split; [reflexivity |]).
      apply bystander_fetchEquipos. intros st''. cbn. repeat split.
Qed.

Lemma owner_handleDelete_resume (id : prim) (out : Outcome) (st : State) :
  deletingId st = id -> owner id (handleDelete_resume eng baseUrl id out) st.
Proof.
  intros Hid. unfold handleDelete_resume, handleDelete_finally.
  destruct out as [msg | status body]; [reflexivity |].
  destruct (ok status); cbn [negb]; [| reflexivity].
  cbn [owner setSuccess].
  destruct (removeRecord eng id _) as [st1 |] eqn:Hrm; [| exact I].
  assert (Hid1 : deletingId st1 = id).
  { unfold removeRecord in Hrm. cbn [equipos] in Hrm.
    destruct (equipos st); try discriminate.
    destruct (js_filter _ elems); try discriminate.
    injection Hrm as <-. exact Hid. }
  cbn [fetchEquipos owner setLoading]. split; [reflexivity |].
  split; [exact Hid1 |].
  intros out' st' _. unfold fetchEquipos_resume.
  destruct (fetchEquipos_try eng out'); reflexivity.
Qed.

Lemma run_bystander (p : Prog) :
  forall st, bystander p st ->
  match run p st with
  | Finished st' => deletingId st' = deletingId st
  | Suspended st' r k =>
      deletingId st' = deletingId st /\ bystander_entry (r, k)
  | Crashed => True
  end.
Proof.
  induction p as [| u k IH | r k _]; intros st H; cbn in *.
  - reflexivity.
  - destruct (u st) as [st1 |]; [| exact I].
    destruct H as [Hid H]. specialize (IH st1 H).
    destruct (run k st1); try rewrite <- Hid; exact IH.
  - split; [reflexivity | exact H].
Qed.

Lemma run_owner (d : prim) (p : Prog) :
  forall st, owner d p st ->
  match run p st with
  | Finished st' => deletingId st' = PNull
  | Suspended st' r k =>
      deletingId st' = d /\ is_remove r = false /\ owner_entry d (r, k)
  | Crashed => True
  end.
Proof.
  induction p as [| u k IH | r k _]; intros st H; cbn in *.
  - exact H.
  - destruct (u st) as [st1 |]; [apply IH, H | exact I].
  - destruct H as (Hr & Hd & Hk). repeat split; assumption.
Qed.

(** Code that is not a remove runs beside whatever waits. *)
Lemma launch_bystander (p : Prog) (s : System) :
  delete_invariant s -> alive s = true -> bystander p (ui s) ->
  delete_invariant (launch p s).
Proof.
  intros Hinv Halive Hp. specialize (Hinv Halive).
  apply run_bystander in Hp. unfold launch, delete_invariant, deleteDisabled.
  destruct (run p (ui s)) as [st' | st' r k |]; cbn; [| | discriminate];
    intros _.
  - rewrite Hp. exact Hinv.
  - destruct Hp as [Hid Hk]. rewrite Hid.
    destruct Hinv as [[Hoff Hall] | (l1 & w & l2 & Heq & H1 & H2 & Hw & Hon)].
    + left. split; [exact Hoff |].
      apply Forall_app. split; [exact Hall | constructor; [exact Hk | constructor]].
    + right. exists l1, w, (l2 ++ [(r, k)])%list.
      split; [rewrite Heq, <- app_assoc; reflexivity |].
      split; [exact H1 |]. split; [| split; assumption].
      apply Forall_app. split; [exact H2 | constructor; [exact Hk | constructor]].
Qed.

Lemma step_delete_invariant (s : System) (ev : Event) :
  delete_invariant s ->
  offered s ev = true -> truthy_ids ev = true ->
  delete_invariant (step eng baseUrl s ev).
Proof.
  intros Hinv Hoff Hids. unfold step.
  destruct (alive s) eqn:Halive; cbn [negb]; [| exact Hinv].
  destruct ev as [| name v | | id confirmed | n out].
  - apply launch_bystander; try assumption.
    apply bystander_fetchEquipos. intros st. exact I.
  - apply launch_bystander; try assumption. cbn. repeat split.
  - apply launch_bystander; try assumption. apply bystander_handleSubmit.
  - destruct confirmed.
    + specialize (Hinv Halive). cbn in Hoff, Hids.
      apply negb_true_iff in Hoff.
      destruct Hinv as [[_ Hall] | (_ & _ & _ & _ & _ & _ & _ & Hon)];
        [| congruence].
      intros _. right.
      exists (inflight s),
        (POST (baseUrl ++ "?id=" ++ prim_to_string id) (deleteForm id),
         handleDelete_resume eng baseUrl id), [].
      split; [reflexivity |]. split; [exact Hall |].
      split; [constructor |]. split; [| exact Hids].
      intros out st' Hid. apply owner_handleDelete_resume, Hid.
    + apply launch_bystander; try assumption. exact I.
  - destruct (nth_error (inflight s) n) as [[r k] |] eqn:Hn; [| exact Hinv].
    specialize (Hinv Halive).
    destruct Hinv as [[Hdis Hall] | (l1 & w & l2 & Heq & H1 & H2 & Hw & Hon)].
    + apply launch_bystander; cbn [ui alive inflight]; [| reflexivity |].
      * intros _. left. split; [exact Hdis | apply Forall_drop_nth, Hall].
      * apply (Forall_nth_error_Some _ _ _ _ Hall Hn).
    + rewrite Heq in Hn |- *.
      destruct (nth_error_middle l1 w l2 n (r, k) Hn)
        as [[Hn1 Hdrop] | [[Hx Hdrop] | (m & Hn2 & Hdrop)]]; rewrite Hdrop.
      * apply launch_bystander; cbn [ui alive inflight]; [| reflexivity |].
        -- intros _. right. exists (drop_nth n l1), w, l2.
           split; [reflexivity |].
           split; [apply Forall_drop_nth, H1 |]. repeat split; assumption.
        -- apply (Forall_nth_error_Some _ _ _ _ H1 Hn1).
      * subst w. pose proof (Hw out (ui s) eq_refl) as Hrun.
        apply run_owner in Hrun. cbn [snd] in Hrun.
        unfold launch, delete_invariant, deleteDisabled. cbn [ui inflight].
        destruct (run (k out) (ui s)) as [st' | st' r' k' |]; cbn;
          [| | discriminate]; intros _.
        -- left. rewrite Hrun. split; [reflexivity |].
           apply Forall_app. split; assumption.
        -- destruct Hrun as (Hid & Hr' & Hk'). right.
           exists (l1 ++ l2)%list, (r', k'), [].
           split; [reflexivity |].
           split; [apply Forall_app; split; assumption |].
           split; [constructor |]. rewrite Hid. split; assumption.
      * apply launch_bystander; cbn [ui alive inflight]; [| reflexivity |].
        -- intros _. right. exists l1, w, (drop_nth m l2).
           split; [reflexivity |]. split; [exact H1 |].
           split; [apply Forall_drop_nth, H2 |]. split; assumption.
        -- apply (Forall_nth_error_Some _ _ _ _ H2 Hn2).
Qed.

Lemma exec_delete_invariant (evs : list Event) :
  forall s, delete_invariant s ->
            guarded eng baseUrl evs s = true ->
            forallb truthy_ids evs = true ->
            delete_invariant (exec eng baseUrl evs s).
Proof.
  induction evs as [| ev rest IH]; intros s Hinv Hg Hids; [exact Hinv |].
  cbn in Hg, Hids. apply andb_true_iff in Hg as [Hoff Hg].
  apply andb_true_iff in Hids as [Hid Hids].
  cbn [exec fold_left]. apply IH; try assumption.
  apply step_delete_invariant; assumption.
Qed.

End OneRemove.

(** X16. The guard of the delete buttons works for truthy identifiers: in
    every run in which the user only takes actions that are offered and the
    identifiers removed are truthy, at most one POST of [remove] waits for
    its response at any time, and while one waits every delete button is
    disabled - whatever else overlaps with it. *)
Theorem one_remove_at_a_time eng baseUrl (evs : list Event) :
  guarded eng baseUrl evs initialSystem = true ->
  forallb truthy_ids evs = true ->
  let s := exec eng baseUrl evs initialSystem in
  alive s = true ->
  (length (filter is_remove (map fst (inflight s))) <= 1)%nat /\
  (filter is_remove (map fst (inflight s)) <> [] ->
   deleteDisabled (ui s) = true).
Proof.
  intros Hg Hids s Halive.
  assert (Hinv : delete_invariant s).
  { apply exec_delete_invariant; try assumption.
    intros _. left. split; [reflexivity | constructor]. }
  destruct (Hinv Halive)
    as [[Hoff Hall] | (l1 & w & l2 & Heq & H1 & H2 & Hw & Hon)].
  - rewrite (filter_bystanders _ Hall). split; [cbn; lia | congruence].
  - split; [| intros _; exact Hon].
    rewrite Heq, map_app, filter_app. cbn [map filter].
    rewrite (filter_bystanders _ H1).
    destruct (is_remove (fst w)); cbn [app length];
      rewrite (filter_bystanders _ H2); cbn; lia.
Qed.

Lemma one_remove_at_a_time_witness :
  let s := exec v8 baseUrl_Equipos
                ([Mount; Respond 0 listed] ++ typing_saw ++
                 [Submit; Delete (PNum 1) true]) initialSystem in
  (length (filter is_remove (map fst (inflight s))) <= 1)%nat /\
  (filter is_remove (map fst (inflight s)) <> [] ->
   deleteDisabled (ui s) = true).
Proof.
  apply (one_remove_at_a_time v8 baseUrl_Equipos
           ([Mount; Respond 0 listed] ++ typing_saw ++
            [Submit; Delete (PNum 1) true])); reflexivity.
Defined.


(* ================================================================== *)
(** ** Stale messages *)

(** X17. Starting a create or a confirmed remove wipes the messages of the
    previous action before anything is sent: a create that stops at its
    validation leaves no success message and the validation error, a create
    or a remove whose POST waits leaves neither message. *)
Theorem actions_clear_stale_messages eng baseUrl (d : Draft) (id : prim)
        (st : State) :
  match run (handleSubmit eng baseUrl d) st with
  | Finished st' =>
      success st' = None /\
      error st' = Some "Todos los campos son obligatorios"
  | Suspended st' _ _ => success st' = None /\ error st' = None
  | Crashed => False
  end /\
  match run (handleDelete eng baseUrl id true) st with
  | Suspended st' _ _ =>
      success st' = None /\ error st' = None /\ deletingId st' = id
  | Finished _ | Crashed => False
  end.
Proof.
  split.
  - destruct (incomplete d) eqn:Hinc.
    + rewrite (run_handleSubmit_incomplete eng baseUrl d st Hinc).
      split; reflexivity.
    + rewrite (run_handleSubmit_complete eng baseUrl d st Hinc).
      split; reflexivity.
  - rewrite run_handleDelete_confirmed. repeat split.
Qed.
